(** * backtrader/timer.py: the [Timer] trigger evaluator

    A shallow embedding of [Timer.start], [Timer._reset_when],
    [Timer._check_month], [Timer._check_week] and [Timer.check], and of the
    watchdog [ResetTimer], with the properties of the trigger state machine.

    Conventions of the embedding.
    - A [date] is its proleptic Gregorian ordinal ([date.toordinal()]);
      [date.min] is ordinal 1.
    - A naive [datetime] is the number of microseconds since midnight of
      ordinal 0, so that its date is the quotient by [DAY] and its time of day
      the remainder. A [timedelta] is a number of microseconds.
    - [Timer.check] is embedded twice. In [Timer] the numeric timestamp of
      [date2num] (a float number of days upstream) is kept exact, in the
      microsecond unit of the datetimes, and datetimes are not bounded: this
      serves the phases that do no arithmetic on timestamps (the session
      change, the day change and its filters, the marks left in
      [_lastcall]). In [TimerH] the timestamp is the double that the helpers
      compute (module [Float]), the datetime of a sample is what [num2date]
      makes of it, and an addition that leaves the years 1 to 9999 raises:
      the properties that depend on the values of the timestamps (the first
      fire of a date, the instants of a repeating timer, a sample taken
      twice) are stated there. [Timer.check] is [TimerH.check] on helpers
      that convert exactly, wherever no addition overflows (lemma
      [exact_check]).
    - A call that does not return normally (an exception, or the repeat loop
      running forever) is [None]. *)

From Stdlib Require Import ZArith List Lia Bool Arith.
From Stdlib Require String.
Import ListNotations.
Local Open Scope Z_scope.

Definition date := Z.
Definition tod := Z.
Definition datetime := Z.
Definition timedelta := Z.
Definition num := Z.

(** ** Python's [datetime] arithmetic *)

Module Calendar.

Definition DAY : Z := 86400000000.

Definition date_min : date := 1.
Definition datetime_min : datetime := DAY.

(** [d.date()] and [d.time()] of a naive datetime. *)
Definition date_of (d : datetime) : date := d / DAY.
Definition time_of (d : datetime) : tod := d mod DAY.

(** [datetime.combine(ddate, t)]. *)
Definition combine (ddate : date) (t : tod) : datetime := ddate * DAY + t.

Definition hms (h m s us : Z) : tod := ((h * 60 + m) * 60 + s) * 1000000 + us.

Definition _DI400Y : Z := 146097.
Definition _DI100Y : Z := 36524.
Definition _DI4Y : Z := 1461.

Definition _is_leap (year : Z) : bool :=
  (year mod 4 =? 0) && (negb (year mod 100 =? 0) || (year mod 400 =? 0)).

Definition _DAYS_IN_MONTH : list Z :=
  [-1; 31; 28; 31; 30; 31; 30; 31; 31; 30; 31; 30; 31].

Definition _DAYS_BEFORE_MONTH : list Z :=
  [-1; 0; 31; 59; 90; 120; 151; 181; 212; 243; 273; 304; 334].

Definition b2z (b : bool) : Z := if b then 1 else 0.

Definition _days_before_year (year : Z) : Z :=
  let y := year - 1 in y * 365 + y / 4 - y / 100 + y / 400.

Definition _days_before_month (year month : Z) : Z :=
  nth (Z.to_nat month) _DAYS_BEFORE_MONTH 0
  + b2z ((2 <? month) && _is_leap year).

Definition _ymd2ord (year month day : Z) : date :=
  _days_before_year year + _days_before_month year month + day.

(** [_ord2ymd]: ordinal to (year, month, day). *)
Definition _ord2ymd (n0 : date) : Z * Z * Z :=
  let n := n0 - 1 in
  let n400 := n / _DI400Y in let n := n mod _DI400Y in
  let year := n400 * 400 + 1 in
  let n100 := n / _DI100Y in let n := n mod _DI100Y in
  let n4 := n / _DI4Y in let n := n mod _DI4Y in
  let n1 := n / 365 in let n := n mod 365 in
  let year := year + n100 * 100 + n4 * 4 + n1 in
  if (n1 =? 4) || (n100 =? 4) then (year - 1, 12, 31)
  else
    let leapyear := (n1 =? 3) && (negb (n4 =? 24) || (n100 =? 3)) in
    let month := Z.shiftr (n + 50) 5 in
    let preceding :=
      nth (Z.to_nat month) _DAYS_BEFORE_MONTH 0
      + b2z ((2 <? month) && leapyear) in
    if n <? preceding then
      let month := month - 1 in
      let preceding :=
        preceding - (nth (Z.to_nat month) _DAYS_IN_MONTH 0
                     + b2z ((month =? 2) && leapyear)) in
      (year, month, n - preceding + 1)
    else (year, month, n - preceding + 1).

Definition year_of (ddate : date) : Z := fst (fst (_ord2ymd ddate)).
Definition month_of (ddate : date) : Z := snd (fst (_ord2ymd ddate)).
Definition day_of (ddate : date) : Z := snd (_ord2ymd ddate).

Definition _isoweek1monday (year : Z) : Z :=
  let firstday := _ymd2ord year 1 1 in
  let firstweekday := (firstday + 6) mod 7 in
  let week1monday := firstday - firstweekday in
  if 3 <? firstweekday then week1monday + 7 else week1monday.

(** [ddate.isocalendar()]: (ISO year, ISO week, ISO weekday). *)
Definition isocalendar (ddate : date) : Z * Z * Z :=
  let year := year_of ddate in
  let week1monday := _isoweek1monday year in
  let week := (ddate - week1monday) / 7 in
  let day := (ddate - week1monday) mod 7 in
  if week <? 0 then
    let year := year - 1 in
    let week1monday := _isoweek1monday year in
    (year, (ddate - week1monday) / 7 + 1, (ddate - week1monday) mod 7 + 1)
  else if (52 <=? week) && (_isoweek1monday (year + 1) <=? ddate) then
    (year + 1, 1, day + 1)
  else (year, week + 1, day + 1).

End Calendar.

(** ** Python's [bisect] on a sequence of integers *)

Module Bisect.

(** The [while lo < hi] loop of [bisect_left]; [hi - lo] shrinks at every
    turn, so [hi - lo] turns are enough. *)
Fixpoint bisect_left_loop (fuel : nat) (a : list Z) (x : Z) (lo hi : nat) : nat :=
  match fuel with
  | O => lo
  | S fuel' =>
      if (lo <? hi)%nat then
        let mid := ((lo + hi) / 2)%nat in
        if nth mid a 0 <? x then bisect_left_loop fuel' a x (S mid) hi
        else bisect_left_loop fuel' a x lo mid
      else lo
  end.

Definition bisect_left (a : list Z) (x : Z) (lo : nat) : nat :=
  bisect_left_loop (length a - lo) a x lo (length a).

Fixpoint bisect_right_loop (fuel : nat) (a : list Z) (x : Z) (lo hi : nat) : nat :=
  match fuel with
  | O => lo
  | S fuel' =>
      if (lo <? hi)%nat then
        let mid := ((lo + hi) / 2)%nat in
        if x <? nth mid a 0 then bisect_right_loop fuel' a x lo mid
        else bisect_right_loop fuel' a x (S mid) hi
      else lo
  end.

Definition bisect_right (a : list Z) (x : Z) (lo : nat) : nat :=
  bisect_right_loop (length a - lo) a x lo (length a).

End Bisect.

(** ** Time sources *)

(** Modelled from the spec: a timezone object (pytz compatible, not part of
    the sources at hand) as the time source of section 6 uses it: the UTC
    offset that applies at a local wall-clock time, and the one that applies
    at a UTC instant. *)
Record tzinfo := mkTz {
  utcoffset_local : datetime -> timedelta;
  utcoffset_utc : datetime -> timedelta
}.

(** Modelled from the spec: [date2num(dt, tz)] of [backtrader.utils] (absent
    from the sources at hand) localizes the naive [dt] in [tz] and gives the
    UTC timestamp; with no timezone [dt] is taken to be UTC already. The
    timestamp is exact here; [Float.date2num] is the one on doubles. *)
Definition date2num (dt : datetime) (tz : option tzinfo) : num :=
  match tz with
  | None => dt
  | Some z => dt - utcoffset_local z dt
  end.

(** Modelled from the spec: [num2date(x, tz)] of [backtrader.utils] (absent
    from the sources at hand) gives the naive wall-clock datetime of the UTC
    timestamp [x] in [tz]; with no timezone, the naive UTC datetime. The
    conversion is exact here; [Float.num2date] is the one on doubles. *)
Definition num2date (x : num) (tz : option tzinfo) : datetime :=
  match tz with
  | None => x
  | Some z => x + utcoffset_utc z x
  end.

(** Modelled from the spec: [TIME_MAX] of [backtrader.utils] (absent from the
    sources at hand), the end of the calendar day used when no feed gives a
    session end; upstream it is 23:59:59.999990. *)
Definition TIME_MAX : tod := Calendar.hms 23 59 59 999990.

(** Modelled from the spec: a data feed ([AbstractDataBase], absent from the
    sources at hand) is the session and calendar adapter of section 6: its
    session start and end time of day, the next end-of-session boundary it
    answers when the timer samples the timestamp [dt], and its own
    [date2num] and [num2date]. *)
Record DataFeed := mkFeed {
  sessionstart : tod;
  sessionend : tod;
  feed_getnexteos : num -> datetime;
  feed_date2num : datetime -> num;
  feed_num2date : num -> datetime
}.

(** The value of [tzdata]: [None], a timezone, or a data feed. *)
Inductive tzsource :=
| TzNone
| TzInfo (tz : tzinfo)
| TzData (data : DataFeed).

(** ** The timer *)

Module Timer.
Import Calendar Bisect.

Definition SESSION_TIME : Z := 0.
Definition SESSION_START : Z := 1.
Definition SESSION_END : Z := 2.

(** [params.when]: a time of day, or one of the integer session codes. *)
Inductive when_t :=
| WhenTime (t : tod)
| WhenInt (n : Z).

(** The parameters [self.p] the evaluator reads ([tid], [owner], [strats] and
    [cheat] are not read by the methods embedded here). *)
Record Params := mkParams {
  p_when : when_t;
  p_offset : timedelta;
  p_repeat : timedelta;
  p_weekdays : list Z;
  p_weekcarry : bool;
  p_monthdays : list Z;
  p_monthcarry : bool;
  p_allow : option (date -> bool);
  p_tzdata : tzsource
}.

(** A call of one of the three date filters, in the order they happen. *)
Inductive event :=
| EvMonth (ddate : date)
| EvWeek (ddate : date)
| EvAllow (ddate : date).

(** The attributes of a started timer. [_lastcall] is [None] while it holds
    [datetime.min] (which compares unequal to every date) and [Some ddate]
    once it holds a date. [lastwhen] is [None] until the first fire. [calls]
    is a history of the filter calls made by [check], kept to state in which
    order they happen; the source has no such attribute. *)
Record State := mkState {
  _rstwhen : tod;
  _tzdata : tzsource;
  _when : tod;
  _dwhen : option datetime;
  _dtwhen : option num;
  _lastcall : option date;
  _nexteos : datetime;
  _curdate : date;
  _curmonth : Z;
  _monthmask : list Z;
  _curweek : Z;
  _weekmask : list Z;
  lastwhen : option datetime;
  calls : list event
}.

Definition _isdata (st : State) : bool :=
  match _tzdata st with TzData _ => true | _ => false end.

(** [_reset_when(ddate)]; the default argument [datetime.min] is [None]. *)
Definition _reset_when (st : State) (ddate : option date) : State :=
  mkState (_rstwhen st) (_tzdata st) (_rstwhen st) None None ddate
          (_nexteos st) (_curdate st) (_curmonth st) (_monthmask st)
          (_curweek st) (_weekmask st) (lastwhen st) (calls st).

Definition set_nexteos (st : State) (e : datetime) : State :=
  mkState (_rstwhen st) (_tzdata st) (_when st) (_dwhen st) (_dtwhen st)
          (_lastcall st) e (_curdate st) (_curmonth st) (_monthmask st)
          (_curweek st) (_weekmask st) (lastwhen st) (calls st).

Definition set_curdate (st : State) (ddate : date) : State :=
  mkState (_rstwhen st) (_tzdata st) (_when st) (_dwhen st) (_dtwhen st)
          (_lastcall st) (_nexteos st) ddate (_curmonth st) (_monthmask st)
          (_curweek st) (_weekmask st) (lastwhen st) (calls st).

Definition set_month (st : State) (m : Z) (mask : list Z) : State :=
  mkState (_rstwhen st) (_tzdata st) (_when st) (_dwhen st) (_dtwhen st)
          (_lastcall st) (_nexteos st) (_curdate st) m mask
          (_curweek st) (_weekmask st) (lastwhen st) (calls st).

Definition set_week (st : State) (w : Z) (mask : list Z) : State :=
  mkState (_rstwhen st) (_tzdata st) (_when st) (_dwhen st) (_dtwhen st)
          (_lastcall st) (_nexteos st) (_curdate st) (_curmonth st)
          (_monthmask st) w mask (lastwhen st) (calls st).

Definition set_target (st : State) (dwhen : option datetime)
    (dtwhen : option num) : State :=
  mkState (_rstwhen st) (_tzdata st) (_when st) dwhen dtwhen
          (_lastcall st) (_nexteos st) (_curdate st) (_curmonth st)
          (_monthmask st) (_curweek st) (_weekmask st) (lastwhen st) (calls st).

Definition set_lastwhen (st : State) (dwhen : option datetime) : State :=
  mkState (_rstwhen st) (_tzdata st) (_when st) (_dwhen st) (_dtwhen st)
          (_lastcall st) (_nexteos st) (_curdate st) (_curmonth st)
          (_monthmask st) (_curweek st) (_weekmask st) dwhen (calls st).

Definition record_call (st : State) (e : event) : State :=
  mkState (_rstwhen st) (_tzdata st) (_when st) (_dwhen st) (_dtwhen st)
          (_lastcall st) (_nexteos st) (_curdate st) (_curmonth st)
          (_monthmask st) (_curweek st) (_weekmask st) (lastwhen st)
          (calls st ++ [e]).

(** [start(data)], lines 70-93. A session code needs a feed to read the
    session time from; [SESSION_TIME] leaves [_rstwhen] unassigned and
    [_reset_when] fails. *)
Definition started (rstwhen : tod) (tzd : tzsource) : State :=
  mkState rstwhen tzd rstwhen None None None
          datetime_min date_min (-1) [] (-1) [] None [].

Definition start (p : Params) (data : DataFeed) : option State :=
  match p_when p with
  | WhenTime t => Some (started t (p_tzdata p))
  | WhenInt n =>
      let tzd := match p_tzdata p with TzNone => TzData data | s => s end in
      if n =? SESSION_START then
        match tzd with
        | TzData f => Some (started (sessionstart f) tzd)
        | _ => None
        end
      else if n =? SESSION_END then
        match tzd with
        | TzData f => Some (started (sessionend f) tzd)
        | _ => None
        end
      else None
  end.

(** [mask.popleft()] repeated [dc] times; popping an empty deque raises. *)
Fixpoint popleft_n (dc : nat) (mask : list Z) : option (list Z) :=
  match dc with
  | O => Some mask
  | S dc' =>
      match mask with
      | [] => None
      | _ :: mask' => popleft_n dc' mask'
      end
  end.

Definition b2n (b : bool) : nat := if b then 1%nat else 0%nat.

Definition nonempty (mask : list Z) : bool :=
  match mask with [] => false | _ => true end.

(** Lines 105-126 of [_check_month] and lines 134-153 of [_check_week] are
    the same text up to the names: [days] is the configured filter, [carry]
    the carry flag, [cur] and [mask] the tracked period and its mask, [key]
    and [dday] the period and day number of the date. The result is the
    returned boolean with the new period and mask. *)
Definition _check_mask (days : list Z) (carry : bool) (cur : Z)
    (mask : list Z) (key dday : Z) : option (bool * (Z * list Z)) :=
  let '(daycarry, cur, mask) :=
    if negb (key =? cur) then (carry && nonempty mask, key, days)
    else (false, cur, mask) in
  let dc := bisect_left mask dday 0 in
  let daycarry := daycarry || (carry && (0 <? dc)%nat) in
  let '(curday, dc) :=
    if (dc <? length mask)%nat then
      let curday := (0 <? bisect_right mask dday dc)%nat in
      (curday, (dc + b2n curday)%nat)
    else (false, dc) in
  match popleft_n dc mask with
  | None => None
  | Some mask => Some (daycarry || curday, (cur, mask))
  end.

Definition _check_month (p : Params) (st : State) (ddate : date)
    : option (bool * State) :=
  match p_monthdays p with
  | [] => Some (true, st)
  | _ =>
      match _check_mask (p_monthdays p) (p_monthcarry p) (_curmonth st)
              (_monthmask st) (month_of ddate) (day_of ddate) with
      | None => None
      | Some (ret, (m, mask)) => Some (ret, set_month st m mask)
      end
  end.

Definition _check_week (p : Params) (st : State) (ddate : date)
    : option (bool * State) :=
  match p_weekdays p with
  | [] => Some (true, st)
  | _ =>
      let '(_, dweek, dwkday) := isocalendar ddate in
      match _check_mask (p_weekdays p) (p_weekcarry p) (_curweek st)
              (_weekmask st) dweek dwkday with
      | None => None
      | Some (ret, (w, mask)) => Some (ret, set_week st w mask)
      end
  end.

(** The end of session asked for at lines 162-166 and 205-210: from the feed,
    or the end of the calendar day. *)
Definition next_eos (st : State) (dt : num) (ddate : date) : datetime :=
  match _tzdata st with
  | TzData f => feed_getnexteos f dt
  | _ => combine ddate TIME_MAX
  end.

(** Lines 191-194: the numeric timestamp of the naive [dwhen]. *)
Definition localize (st : State) (dwhen : datetime) : num :=
  match _tzdata st with
  | TzData f => feed_date2num f dwhen
  | TzInfo z => date2num dwhen (Some z)
  | TzNone => date2num dwhen None
  end.

(** Lines 223-226: the localized datetime of the timestamp [dtwhen]. *)
Definition delocalize (st : State) (dtwhen : num) : datetime :=
  match _tzdata st with
  | TzData f => feed_num2date f dtwhen
  | TzInfo z => num2date dtwhen (Some z)
  | TzNone => num2date dtwhen None
  end.

Definition eq_lastcall (lastcall : option date) (ddate : date) : bool :=
  match lastcall with
  | None => false
  | Some l => l =? ddate
  end.

(** Lines 161-167: session rollover. *)
Definition session_rollover (st : State) (dt : num) (d : datetime)
    (ddate : date) : State :=
  if _nexteos st <? d then
    _reset_when (set_nexteos st (next_eos st dt ddate)) None
  else st.

(** Lines 169-179: on a day change the three filters, in order; the boolean
    is [ret]. When [ret] is false the state is the one left by
    [_reset_when(ddate)]. *)
Definition date_rollover (p : Params) (st : State) (ddate : date)
    : option (bool * State) :=
  if _curdate st <? ddate then
    let st := set_curdate st ddate in
    match _check_month p (record_call st (EvMonth ddate)) ddate with
    | None => None
    | Some (ret, st) =>
        match (if ret then _check_week p (record_call st (EvWeek ddate)) ddate
               else Some (ret, st)) with
        | None => None
        | Some (ret, st) =>
            let '(ret, st) :=
              match p_allow p with
              | Some f =>
                  if ret then (f ddate, record_call st (EvAllow ddate))
                  else (ret, st)
              | None => (ret, st)
              end in
            if ret then Some (true, st)
            else Some (false, _reset_when st (Some ddate))
        end
    end
  else Some (true, st).

(** Lines 182-194: the target of the date, cached or resolved now. *)
Definition resolve (p : Params) (st : State) (ddate : date)
    : State * option datetime * num :=
  match _dtwhen st with
  | Some dtwhen => (st, _dwhen st, dtwhen)
  | None =>
      let dwhen := combine ddate (_when st) in
      let dwhen := if p_offset p =? 0 then dwhen else dwhen + p_offset p in
      let dtwhen := localize st dwhen in
      (set_target st (Some dwhen) (Some dtwhen), Some dwhen, dtwhen)
  end.

(** How the [while True] loop of lines 214-228 ends. *)
Inductive resched :=
| GiveUp
| Next (dwhen : datetime).

Fixpoint repeat_loop (fuel : nat) (r : timedelta) (nexteos d dwhen : datetime)
    : option resched :=
  match fuel with
  | O => None
  | S fuel' =>
      let dwhen := dwhen + r in
      if nexteos <? dwhen then Some GiveUp
      else if d <? dwhen then Some (Next dwhen)
      else repeat_loop fuel' r nexteos d dwhen
  end.

(** Enough turns for the loop to end whenever it ends at all. *)
Definition repeat_fuel (r : timedelta) (d dwhen : datetime) : nat :=
  S (Z.to_nat ((d - dwhen) / r)).

(** Lines 199-230: the target was met. *)
Definition fire (p : Params) (st : State) (dt : num) (d : datetime)
    (ddate : date) (dwhen : option datetime) : option (State * bool) :=
  let st := set_lastwhen st dwhen in
  if p_repeat p =? 0 then Some (_reset_when st (Some ddate), true)
  else
    let st :=
      if _nexteos st <? d then set_nexteos st (next_eos st dt ddate)
      else st in
    match dwhen with
    | None => None
    | Some w =>
        match repeat_loop (repeat_fuel (p_repeat p) d w) (p_repeat p)
                (_nexteos st) d w with
        | None => None
        | Some GiveUp => Some (_reset_when st (Some ddate), true)
        | Some (Next w') =>
            let dtwhen := date2num w' None in
            Some (set_target st (Some (delocalize st dtwhen)) (Some dtwhen),
                  true)
        end
    end.

(** Lines 181-230: no day change, or a day that passed the filters. *)
Definition target_met (p : Params) (st : State) (dt : num) (d : datetime)
    (ddate : date) : option (State * bool) :=
  let '(st, dwhen, dtwhen) := resolve p st ddate in
  if dt <? dtwhen then Some (st, false)
  else fire p st dt d ddate dwhen.

(** [check(dt)], lines 155-230. *)
Definition check (p : Params) (st : State) (dt : num) : option (State * bool) :=
  let d := num2date dt None in
  let ddate := date_of d in
  if eq_lastcall (_lastcall st) ddate then Some (st, false)
  else
    let st := session_rollover st dt d ddate in
    match date_rollover p st ddate with
    | None => None
    | Some (false, st) => Some (st, false)
    | Some (true, st) => target_met p st dt d ddate
    end.

(** A run of [check] over the samples [ts]: the final state and the result of
    every call, or [None] when one of the calls does not return. *)
Fixpoint run (p : Params) (st : State) (ts : list num)
    : option (State * list bool) :=
  match ts with
  | [] => Some (st, [])
  | dt :: ts' =>
      match check p st dt with
      | None => None
      | Some (st', b) =>
          match run p st' ts' with
          | None => None
          | Some (st'', bs) => Some (st'', b :: bs)
          end
      end
  end.

End Timer.

(** ** Notions the properties are stated with *)

Import Calendar Bisect Timer.

(** What the month-day and week-day filters answer in a state, and whether a
    date gets through the three filters of the day change. *)
Definition month_ok (p : Params) (st : State) (ddate : date) : bool :=
  match _check_month p st ddate with
  | Some (ret, _) => ret
  | None => false
  end.

Definition week_ok (p : Params) (st : State) (ddate : date) : bool :=
  match _check_week p st ddate with
  | Some (ret, _) => ret
  | None => false
  end.

Definition allow_ok (p : Params) (ddate : date) : bool :=
  match p_allow p with
  | Some f => f ddate
  | None => true
  end.

Definition date_accepted (p : Params) (st : State) (ddate : date) : bool :=
  month_ok p st ddate && week_ok p st ddate && allow_ok p ddate.

(** The filter calls of a day change, in order and with short-circuit: the
    month-day filter, then the week-day filter if the first passed, then the
    allow predicate (when one is configured) if both passed. *)
Definition filters_trace (p : Params) (st : State) (ddate : date)
    : list event :=
  EvMonth ddate ::
  (if month_ok p st ddate then
     EvWeek ddate ::
     (if week_ok p st ddate then
        match p_allow p with
        | Some _ => [EvAllow ddate]
        | None => []
        end
      else [])
   else []).

(** The date a sample falls on. *)
Definition sample_date (dt : num) : date := date_of (num2date dt None).

(** The samples of a run that come in non-decreasing order. *)
Fixpoint nondecreasing (ts : list num) : Prop :=
  match ts with
  | [] => True
  | t :: ts' => (forall t', In t' ts' -> t <= t') /\ nondecreasing ts'
  end.

(** The state a started timer is in after the calls [ts] have returned. *)
Definition reached (p : Params) (data : DataFeed) (ts : list num)
    (st : State) : Prop :=
  exists st0 bs, start p data = Some st0 /\ run p st0 ts = Some (st, bs).

(** Two states that differ at most in what the filters keep: the tracked
    month and week with their masks, and the history of filter calls. *)
Definition same_timer (st st' : State) : Prop :=
  _rstwhen st' = _rstwhen st /\ _tzdata st' = _tzdata st /\
  _when st' = _when st /\ _dwhen st' = _dwhen st /\
  _dtwhen st' = _dtwhen st /\ _lastcall st' = _lastcall st /\
  _nexteos st' = _nexteos st /\ lastwhen st' = lastwhen st.

(** What the day change of [check] leaves: the tracked date is the later of
    the two; a date that is let through leaves the target and [_lastcall] as
    they were, a rejected one is marked as called. *)
Definition rolled (st : State) (ddate : date) (ret : bool) (st1 : State)
    : Prop :=
  _rstwhen st1 = _rstwhen st /\ _tzdata st1 = _tzdata st /\
  _nexteos st1 = _nexteos st /\ lastwhen st1 = lastwhen st /\
  _curdate st1 = Z.max (_curdate st) ddate /\
  (ret = true ->
   _when st1 = _when st /\ _dwhen st1 = _dwhen st /\
   _dtwhen st1 = _dtwhen st /\ _lastcall st1 = _lastcall st) /\
  (ret = false ->
   _lastcall st1 = Some ddate /\ _dwhen st1 = None /\ _dtwhen st1 = None /\
   _when st1 = _rstwhen st).

(** The order on the values of [_lastcall]: [datetime.min], the value it has
    when the timer never fired, is below every date. *)
Definition lastcall_le (a b : option date) : Prop :=
  match a, b with
  | None, _ => True
  | Some _, None => False
  | Some x, Some y => x <= y
  end.

(** A feed for the timers that do not read one. *)
Definition no_feed : DataFeed :=
  mkFeed 0 TIME_MAX (fun dt => dt) (fun d => d) (fun x => x).

(** A timer for 09:00 without repeat and without filters, no timezone. *)
Definition daily_0900 : Params :=
  mkParams (WhenTime (hms 9 0 0 0)) 0 0 [] false [] true None TzNone.

(** The month-day filter of the specification's example: days 5, 15 and 25,
    with or without carry. *)
Definition monthly_5_15_25 (carry : bool) : Params :=
  mkParams (WhenTime (hms 9 0 0 0)) 0 0 [] false [5; 15; 25] carry None TzNone.

(** A timezone five hours behind UTC all year round. *)
Definition utc_minus_5 : tzinfo :=
  mkTz (fun _ => - hms 5 0 0 0) (fun _ => - hms 5 0 0 0).

(** A timer for 09:30 local time repeating every 45 minutes, in a plain
    timezone. *)
Definition repeat_0930_local : Params :=
  mkParams (WhenTime (hms 9 30 0 0)) 0 (hms 0 45 0 0) [] false [] true None
           (TzInfo utc_minus_5).

(** Two states that agree on what the day change keeps: the tracked date,
    month and week, the masks, the history of filter calls, and the time
    source with the configured target time. *)
Definition same_filters (st st' : State) : Prop :=
  _curdate st' = _curdate st /\ _curmonth st' = _curmonth st /\
  _monthmask st' = _monthmask st /\ _curweek st' = _curweek st /\
  _weekmask st' = _weekmask st /\ calls st' = calls st /\
  _tzdata st' = _tzdata st /\ _rstwhen st' = _rstwhen st.

(** [_lastcall] never holds a date later than the tracked date. *)
Definition lastcall_seen (st : State) : Prop :=
  forall a, _lastcall st = Some a -> a <= _curdate st.

(** A tracked date that the allow predicate vetoes is marked as called,
    unless it is the date the timer starts with. *)
Definition vetoed (p : Params) (st : State) : Prop :=
  forall f, p_allow p = Some f -> f (_curdate st) = false ->
  date_min < _curdate st -> _lastcall st = Some (_curdate st).

(** A timer for 09:00 on the tenth of the month and on Wednesdays, every date
    being vetoed by the allow predicate. *)
Definition vetoed_0900 : Params :=
  mkParams (WhenTime (hms 9 0 0 0)) 0 0 [3] false [10] true
           (Some (fun _ => false)) TzNone.

(** A time source that is not a data feed. *)
Definition is_plain (tzd : tzsource) : Prop :=
  match tzd with TzData _ => False | _ => True end.


(** A feed on UTC clocks in an overnight session: the session the samples
    of the example fall in ends on 2024-01-11 at 05:00. *)
Definition overnight_feed : DataFeed :=
  mkFeed (hms 18 0 0 0) (hms 5 0 0 0)
         (fun _ => combine 738896 (hms 5 0 0 0))
         (fun d => d) (fun x => x).




(** A timer repeating every hour from 09:00, without timezone. *)
Definition hourly_0900 : Params :=
  mkParams (WhenTime (hms 9 0 0 0)) 0 (hms 1 0 0 0) [] false [] true None
           TzNone.

(** ** Further notions: the masks of the day filters *)

(** A sequence in ascending order, as the day filters are written. *)
Definition ascending (a : list Z) : Prop :=
  forall i j, (i <= j < length a)%nat -> nth i a 0 <= nth j a 0.

(** [m] is what is left of [l] after entries were popped from its front. *)
Definition suffix_of (m l : list Z) : Prop := exists n, m = skipn n l.

(** Both masks of a timer are what is left of the configured filters. *)
Definition masks_from_filters (p : Params) (st : State) : Prop :=
  suffix_of (_monthmask st) (p_monthdays p) /\
  suffix_of (_weekmask st) (p_weekdays p).

(** A timer for the start of the session of the feed it is started
    with. *)
Definition at_session_start : Params :=
  mkParams (WhenInt SESSION_START) 0 0 [] false [] true None TzNone.

(** ** The range of [datetime] and the float timestamp *)

(** [datetime.max], and [dwhen + delta] on naive datetimes: outside the
    years 1 to 9999 the addition raises [OverflowError]. *)
Definition datetime_max : datetime :=
  Calendar.combine 3652059 (Calendar.hms 23 59 59 999999).

Definition dt_add (d : datetime) (delta : timedelta) : option datetime :=
  let r := d + delta in
  if (Calendar.datetime_min <=? r) && (r <=? datetime_max) then Some r
  else None.

(** Modelled from the spec: the two module helpers [date2num] and [num2date]
    of [backtrader.utils] (absent from the sources at hand) as the timer
    calls them. The timestamp is a float upstream; its values are kept in
    [num] by an encoding that preserves the order, so that the comparison of
    line 196 is the comparison of the integers. Both can raise: [date2num]
    when the UTC offset takes the datetime out of the range of [datetime],
    [num2date] for a timestamp that is no date of the calendar. *)
Record Helpers := mkHelpers {
  h_date2num : datetime -> option tzinfo -> option num;
  h_num2date : num -> option tzinfo -> option datetime
}.

(** Modelled from the spec: the helpers as upstream backtrader computes them
    on IEEE doubles. A finite double that is at least 1 is a multiple of
    [2^-52]; the timestamp (a number of days) is held as that multiple, so
    one day is [UNIT]. *)
Module Float.
Import Calendar.

Definition UNIT : Z := 2 ^ 52.

(** [n / d] rounded to the nearest integer, ties to even. *)
Definition rne (n d : Z) : Z :=
  let q := n / d in
  let r := n mod d in
  if 2 * r <? d then q
  else if d <? 2 * r then q + 1
  else if Z.even q then q else q + 1.

(** The double nearest to the rational [n / d] (with [0 <= n] and [0 < d]),
    as a multiple of [2^-k]: [e] is the exponent of [n / d], the significand
    has 53 bits. *)
Definition round53 (k n d : Z) : Z :=
  if n <=? 0 then 0
  else
    let e0 := Z.log2 n - Z.log2 d in
    let ge := if 0 <=? e0 then d * 2 ^ e0 <=? n else d <=? n * 2 ^ (- e0) in
    let e := if ge then e0 else e0 - 1 in
    let sh := 52 - e in
    let m := if 0 <=? sh then rne (n * 2 ^ sh) d else rne n (d * 2 ^ (- sh)) in
    if 0 <=? k - sh then m * 2 ^ (k - sh) else m / 2 ^ (sh - k).

(** The quotients of [date2num] are below 1: they are held as multiples of
    [2^-FRAC]. *)
Definition FRAC : Z := 150.

Definition fdiv (a b : Z) : Z := round53 FRAC a b.

(** [date2num(dt)] for a naive [dt]: [math.fsum] of the ordinal and of the
    four quotients, that is their exact sum rounded once. *)
Definition date2num_utc (dt : datetime) : num :=
  let t := time_of dt in
  let hour := t / 3600000000 in
  let minute := (t / 60000000) mod 60 in
  let second := (t / 1000000) mod 60 in
  let microsecond := t mod 1000000 in
  round53 52
    (date_of dt * 2 ^ FRAC + fdiv hour 24 + fdiv minute 1440 +
     fdiv second 86400 + fdiv microsecond 86400000000)
    (2 ^ FRAC).

(** [date2num(dt, tz)]: with a timezone, the UTC offset at [dt] is taken
    off first. *)
Definition date2num (dt : datetime) (tz : option tzinfo) : option num :=
  match tz with
  | None => Some (date2num_utc dt)
  | Some z =>
      match dt_add dt (- utcoffset_local z dt) with
      | Some utc => Some (date2num_utc utc)
      | None => None
      end
  end.

(** A product of two doubles, the second below 1 and held as a multiple of
    [2^-52]. *)
Definition fmul (c r : Z) : Z := round53 52 (c * r) UNIT.

(** [num2date(x, tz)]: the date of the integer part, then hours, minutes,
    seconds and microseconds by [divmod] of the remainder, with the two
    compensations of rounding errors (below 10 microseconds, above
    999990). *)
Definition num2date (x : num) (tz : option tzinfo) : option datetime :=
  let ix := Z.quot x UNIT in
  if (1 <=? ix) && (ix <=? 3652059) then
    let y := fmul 24 (x - ix * UNIT) in
    let hour := y / UNIT in
    let y := fmul 60 (y mod UNIT) in
    let minute := y / UNIT in
    let y := fmul 60 (y mod UNIT) in
    let second := y / UNIT in
    let y := fmul 1000000 (y mod UNIT) in
    let microsecond := y / UNIT in
    let microsecond := if microsecond <? 10 then 0 else microsecond in
    if (hour <? 24) && (minute <? 60) && (second <? 60) &&
       (microsecond <? 1000000) then
      let d := combine ix (hms hour minute second microsecond) in
      match (match tz with
             | None => Some d
             | Some z => dt_add d (utcoffset_utc z d)
             end) with
      | Some d =>
          if 999990 <? microsecond then dt_add d (1000000 - microsecond)
          else Some d
      | None => None
      end
    else None
  else None.

Definition helpers : Helpers := mkHelpers date2num num2date.

End Float.

(** ** The timer on float timestamps and bounded datetimes *)

(** [Timer.check] once more, following the interpreter in the two respects
    that the embedding above leaves out. The timestamps go through the
    helpers [date2num] and [num2date], so that the comparison of line 196 is
    one of timestamps and those of lines 161, 204, 216 and 220 are comparisons
    of datetimes. The additions of lines 187 and 215 raise when they leave
    the range of [datetime]. The session change, the day change and the
    filters read neither, and are the ones of [Timer]. *)
Module TimerH.
Import Calendar Timer.

Section WithHelpers.
Variable H : Helpers.

(** Lines 191-194. *)
Definition localize (st : State) (dwhen : datetime) : option num :=
  match _tzdata st with
  | TzData f => Some (feed_date2num f dwhen)
  | TzInfo z => h_date2num H dwhen (Some z)
  | TzNone => h_date2num H dwhen None
  end.

(** Lines 223-226. *)
Definition delocalize (st : State) (dtwhen : num) : option datetime :=
  match _tzdata st with
  | TzData f => Some (feed_num2date f dtwhen)
  | TzInfo z => h_num2date H dtwhen (Some z)
  | TzNone => h_num2date H dtwhen None
  end.

(** Lines 182-194; [None] is the [OverflowError] of line 187, or of the
    localization. *)
Definition resolve (p : Params) (st : State) (ddate : date)
    : option (State * option datetime * num) :=
  match _dtwhen st with
  | Some dtwhen => Some (st, _dwhen st, dtwhen)
  | None =>
      let dwhen := combine ddate (_when st) in
      match (if p_offset p =? 0 then Some dwhen
             else dt_add dwhen (p_offset p)) with
      | None => None
      | Some dwhen =>
          match localize st dwhen with
          | None => None
          | Some dtwhen =>
              Some (set_target st (Some dwhen) (Some dtwhen),
                    Some dwhen, dtwhen)
          end
      end
  end.

(** The loop of lines 214-228; [None] is the [OverflowError] of line 215, or
    a loop that does not end. *)
Fixpoint repeat_loop (fuel : nat) (r : timedelta) (nexteos d dwhen : datetime)
    : option resched :=
  match fuel with
  | O => None
  | S fuel' =>
      match dt_add dwhen r with
      | None => None
      | Some dwhen =>
          if nexteos <? dwhen then Some GiveUp
          else if d <? dwhen then Some (Next dwhen)
          else repeat_loop fuel' r nexteos d dwhen
      end
  end.

(** Lines 199-230. *)
Definition fire (p : Params) (st : State) (dt : num) (d : datetime)
    (ddate : date) (dwhen : option datetime) : option (State * bool) :=
  let st := set_lastwhen st dwhen in
  if p_repeat p =? 0 then Some (_reset_when st (Some ddate), true)
  else
    let st :=
      if _nexteos st <? d then set_nexteos st (next_eos st dt ddate)
      else st in
    match dwhen with
    | None => None
    | Some w =>
        match repeat_loop (repeat_fuel (p_repeat p) d w) (p_repeat p)
                (_nexteos st) d w with
        | None => None
        | Some GiveUp => Some (_reset_when st (Some ddate), true)
        | Some (Next w') =>
            match h_date2num H w' None with
            | None => None
            | Some dtwhen =>
                match delocalize st dtwhen with
                | None => None
                | Some dw =>
                    Some (set_target st (Some dw) (Some dtwhen), true)
                end
            end
        end
    end.

(** Lines 181-230. *)
Definition target_met (p : Params) (st : State) (dt : num) (d : datetime)
    (ddate : date) : option (State * bool) :=
  match resolve p st ddate with
  | None => None
  | Some (st, dwhen, dtwhen) =>
      if dt <? dtwhen then Some (st, false)
      else fire p st dt d ddate dwhen
  end.

(** [check(dt)], lines 155-230. *)
Definition check (p : Params) (st : State) (dt : num)
    : option (State * bool) :=
  match h_num2date H dt None with
  | None => None
  | Some d =>
      let ddate := date_of d in
      if eq_lastcall (_lastcall st) ddate then Some (st, false)
      else
        let st := session_rollover st dt d ddate in
        match date_rollover p st ddate with
        | None => None
        | Some (false, st) => Some (st, false)
        | Some (true, st) => target_met p st dt d ddate
        end
  end.

(** A run of [check]: the final state and the result of every call. *)
Fixpoint run (p : Params) (st : State) (ts : list num)
    : option (State * list bool) :=
  match ts with
  | [] => Some (st, [])
  | dt :: ts' =>
      match check p st dt with
      | None => None
      | Some (st', b) =>
          match run p st' ts' with
          | None => None
          | Some (st'', bs) => Some (st'', b :: bs)
          end
      end
  end.


End WithHelpers.

End TimerH.

(** ** Notions for the timer on float timestamps *)

(** The helpers of [Timer]: exact, and never raising. *)
Definition exact_helpers : Helpers :=
  mkHelpers (fun d tz => Some (date2num d tz))
            (fun x tz => Some (num2date x tz)).


(** What lines 221-226 make of a rescheduled instant [w]: its timestamp
    without timezone, converted back by the time source. *)
Definition round_trip (H : Helpers) (tzd : tzsource) (w : datetime)
    : option datetime :=
  match h_date2num H w None with
  | None => None
  | Some x =>
      match tzd with
      | TzData f => Some (feed_num2date f x)
      | TzInfo z => h_num2date H x (Some z)
      | TzNone => h_num2date H x None
      end
  end.


(** Lines 185-187: the wall-clock target of the date [D] for the target time
    [w], when the offset does not take it out of the range of [datetime]. *)
Definition target_of (p : Params) (w : tod) (D : date) : option datetime :=
  if p_offset p =? 0 then Some (combine D w)
  else dt_add (combine D w) (p_offset p).


(** A timer for 09:00:00.25 repeating every hour, without timezone. *)
Definition quarter_second_hourly : Params :=
  mkParams (WhenTime (hms 9 0 0 250000)) 0 (hms 1 0 0 0) [] false [] true None
           TzNone.


(** The timestamp of a wall-clock instant of 2024-01-10 without timezone. *)
Definition ts_0110 (h m s us : Z) : num :=
  Float.date2num_utc (combine 738895 (hms h m s us)).





(** A timer for 09:00:00.25 whose repeat interval is minus one microsecond,
    and the daily timer of 09:00 with an offset of 3000000 days. *)
Definition backwards_repeat : Params :=
  mkParams (WhenTime (hms 9 0 0 250000)) 0 (-1) [] false [] true None TzNone.

Definition far_offset_0900 : Params :=
  mkParams (WhenTime (hms 9 0 0 0)) (3000000 * DAY) 0 [] false [] true None
           TzNone.

(** The target of the date [D] for the target time [w] can be resolved and
    localized on the time source of [st]: lines 185-194 do not raise. *)
Definition resolvable (H : Helpers) (p : Params) (st : State) (w : tod)
    (D : date) : Prop :=
  exists tg trig,
    target_of p w D = Some tg /\ TimerH.localize H st tg = Some trig.

(** ** The watchdog [ResetTimer] *)

(** The methods of [ResetTimer] that decide when a reset is requested.
    What they get from outside the repository is an input here: the jobs
    that [schedule.run_pending()] finds due, in the order it runs them; what
    [open_at_time] of the two market calendars answers; and what
    [live_test_app] reads through the JSON handler and the clock, already
    parsed (the current time, the time of the last cycle, and the count and
    the unit of the candle size). *)
Module ResetTimer.
Import String.

(** The parameters read by the methods embedded here. *)
Record Params := mkRParams {
  p_cycle_mult : Z;
  p_market : string;
  p_early_trading : bool;
  p_late_trading : bool
}.

(** [self.timer] ([None] until a job sets it) and [self.lastwhen]. *)
Record State := mkRState {
  timer : option bool;
  lastwhen : option timedelta
}.

(** [__init__], lines 306-308. *)
Definition init : State := mkRState None None.

(** What [open_at_time] answers: for the stock calendar as a function of
    [only_rth], for the futures calendar; [None] is a [ValueError]. *)
Record Calendars := mkCalendars {
  nyse_open_at : bool -> option bool;
  cme_open_at : option bool
}.

Definition or_false (r : option bool) : bool :=
  match r with Some b => b | None => false end.

(** [market_open], lines 318-365; [None] is the [None] returned when no
    branch matches the market name. *)
Definition market_open (p : Params) (cal : Calendars) : option bool :=
  let rth := negb (p_early_trading p || p_late_trading p) in
  if (p_market p =? "stock")%string then
    Some (or_false (nyse_open_at cal rth))
  else if (p_market p =? "futures")%string then
    Some (or_false (cme_open_at cal))
  else if (p_market p =? "both")%string then
    Some (or_false (nyse_open_at cal rth))
  else None.

(** The truth value of what [market_open] returns. *)
Definition truthy (r : option bool) : bool := or_false r.

(** [daily_reset], lines 367-370. *)
Definition daily_reset (st : State) : State :=
  mkRState (Some true) (lastwhen st).

(** What [live_test_app] has read: [datetime.now()], the parsed
    [LASTCYCLE], and the two words of [CANDLES]. *)
Record Reading := mkReading {
  r_now : datetime;
  r_cycle : datetime;
  r_num : Z;
  r_val : string
}.

(** The range of [timedelta]: from -999999999 days to 999999999 days,
    23:59:59.999999. Building a timedelta outside of it raises
    [OverflowError]. *)
Definition timedelta_min : timedelta := -999999999 * DAY.
Definition timedelta_max : timedelta := 999999999 * DAY + (DAY - 1).

Definition in_timedelta (t : Z) : bool :=
  (timedelta_min <=? t) && (t <=? timedelta_max).

(** The value of [num] after lines 387-398: a timedelta for a known unit,
    the integer itself otherwise; [Overflow] when the timedelta of a known
    unit is out of range and the constructor raises. *)
Inductive span :=
| Delta (t : timedelta)
| Count (n : Z)
| Overflow.

Definition delta (t : Z) : span :=
  if in_timedelta t then Delta t else Overflow.

Definition candle_span (num : Z) (val : string) : span :=
  if ((val =? "sec") || (val =? "secs"))%string then delta (num * 1000000)
  else if ((val =? "min") || (val =? "mins"))%string then
    delta (num * 60000000)
  else if ((val =? "hour") || (val =? "hours"))%string then
    delta (num * 3600000000)
  else if ((val =? "day") || (val =? "days"))%string then delta (num * DAY)
  else if ((val =? "week") || (val =? "weeks"))%string then
    delta (num * 7 * DAY)
  else if ((val =? "month") || (val =? "months"))%string then
    delta (30 * num * DAY)
  else Count num.

(** [live_test_app], lines 372-411. A candle size out of range raises at
    lines 388-398, before the elapsed time is recorded. With the market
    open, the product [cycle_mult * num] raises when it is out of the range
    of [timedelta], and comparing the elapsed timedelta with an integer (an
    unknown unit) raises. *)
Definition live_test_app (p : Params) (cal : Calendars) (r : Reading)
    (st : State) : option State :=
  match candle_span (r_num r) (r_val r) with
  | Overflow => None
  | num =>
      let elapsed := r_now r - r_cycle r in
      let st := mkRState (timer st) (Some elapsed) in
      if truthy (market_open p cal) then
        match num with
        | Delta t =>
            if in_timedelta (p_cycle_mult p * t) then
              let timecheck := p_cycle_mult p * t <? elapsed in
              if timecheck then Some (mkRState (Some true) (lastwhen st))
              else Some st
            else None
        | _ => None
        end
      else Some st
  end.

(** A job that [run_pending] finds due. *)
Inductive job :=
| DailyReset
| LiveTest (cal : Calendars) (r : Reading).

Fixpoint run_pending (p : Params) (due : list job) (st : State)
    : option State :=
  match due with
  | [] => Some st
  | DailyReset :: due' => run_pending p due' (daily_reset st)
  | LiveTest cal r :: due' =>
      match live_test_app p cal r st with
      | None => None
      | Some st' => run_pending p due' st'
      end
  end.

(** [check], lines 413-421. *)
Definition check (p : Params) (due : list job) (st : State)
    : option (State * bool) :=
  match run_pending p due st with
  | None => None
  | Some st =>
      if or_false (timer st) then
        Some (mkRState (Some false) (lastwhen st), true)
      else Some (st, false)
  end.

(** A watchdog on the stock market with the default multiplier, and a
    reading of five-minute candles whose last cycle is 11 minutes old. *)
Definition stock_watchdog : Params := mkRParams 2 "stock" false false.

Definition open_calendars : Calendars :=
  mkCalendars (fun _ => Some true) (Some true).

Definition stale_reading : Reading :=
  mkReading (combine 738895 (hms 10 11 0 0)) (combine 738895 (hms 10 0 0 0))
            5 "mins".

Definition odd_reading : Reading :=
  mkReading (combine 738895 (hms 10 11 0 0)) (combine 738895 (hms 10 0 0 0))
            5 "ticks".

(** Two readings with candle sizes at the edge of [timedelta]: 1000000000
    days, which is no timedelta, and 600000000 days, whose double is
    none. *)
Definition huge_reading : Reading :=
  mkReading (combine 738895 (hms 10 11 0 0)) (combine 738895 (hms 10 0 0 0))
            1000000000 "days".

Definition long_reading : Reading :=
  mkReading (combine 738895 (hms 10 11 0 0)) (combine 738895 (hms 10 0 0 0))
            600000000 "days".

End ResetTimer.

(** * Properties *)

(** ** The binary searches stay within their bounds *)

Lemma mid_bounds (lo hi : nat) :
  (lo < hi)%nat -> (lo <= (lo + hi) / 2 < hi)%nat.
Proof.
  intros H. split.
  - apply Nat.div_le_lower_bound; lia.
  - apply Nat.Div0.div_lt_upper_bound; lia.
Qed.

Lemma bisect_left_loop_bounds fuel : forall a x lo hi,
  (lo <= hi)%nat ->
  (lo <= bisect_left_loop fuel a x lo hi <= hi)%nat.
Proof.
  induction fuel as [|fuel IH]; intros a x lo hi Hle;
    cbn [bisect_left_loop]; [lia|].
  destruct (Nat.ltb_spec lo hi) as [Hlt|Hge]; [|lia].
  pose proof (mid_bounds lo hi Hlt) as Hm.
  set (mid := ((lo + hi) / 2)%nat) in *.
  destruct (nth mid a 0 <? x).
  - specialize (IH a x (S mid) hi). lia.
  - specialize (IH a x lo mid). lia.
Qed.

Lemma bisect_right_loop_bounds fuel : forall a x lo hi,
  (lo <= hi)%nat ->
  (lo <= bisect_right_loop fuel a x lo hi <= hi)%nat.
Proof.
  induction fuel as [|fuel IH]; intros a x lo hi Hle;
    cbn [bisect_right_loop]; [lia|].
  destruct (Nat.ltb_spec lo hi) as [Hlt|Hge]; [|lia].
  pose proof (mid_bounds lo hi Hlt) as Hm.
  set (mid := ((lo + hi) / 2)%nat) in *.
  destruct (x <? nth mid a 0).
  - specialize (IH a x lo mid). lia.
  - specialize (IH a x (S mid) hi). lia.
Qed.

Lemma bisect_left_le a x : (bisect_left a x 0 <= length a)%nat.
Proof. unfold bisect_left. apply bisect_left_loop_bounds. lia. Qed.

Lemma bisect_right_ge a x lo :
  (lo <= length a)%nat -> (lo <= bisect_right a x lo)%nat.
Proof. intros H. unfold bisect_right. apply bisect_right_loop_bounds. lia. Qed.

(** ** The day filters *)

Lemma popleft_n_drop dc : forall mask,
  (dc <= length mask)%nat -> popleft_n dc mask = Some (skipn dc mask).
Proof.
  induction dc as [|dc IH]; intros [|x mask] H; simpl in *;
    try reflexivity; try lia.
  apply IH. lia.
Qed.

(** The loop of [popleft] never meets an empty mask: [_check_mask] always
    returns, and this is what it returns. *)
Lemma _check_mask_eq days carry cur mask key dday :
  let mask1 := if negb (key =? cur) then days else mask in
  let dc := bisect_left mask1 dday 0 in
  let curday :=
    (dc <? length mask1)%nat && (0 <? bisect_right mask1 dday dc)%nat in
  _check_mask days carry cur mask key dday =
  Some ((if negb (key =? cur) then carry && nonempty mask else false)
        || (carry && (0 <? dc)%nat) || curday,
        (if negb (key =? cur) then key else cur,
         skipn (dc + b2n curday) mask1)).
Proof.
  intros mask1 dc curday. unfold _check_mask.
  destruct (negb (key =? cur)); fold mask1; fold dc;
  subst curday; pose proof (bisect_left_le mask1 dday) as Hle; fold dc in Hle;
  destruct (Nat.ltb_spec dc (length mask1)) as [Hlt|Hge]; cbn [andb];
  rewrite popleft_n_drop; try reflexivity.
  all: try (destruct (0 <? bisect_right mask1 dday dc)%nat; simpl; lia).
  all: try lia.
  all: simpl b2n; rewrite Nat.add_0_r; reflexivity.
Qed.

Lemma _check_month_total p st ddate :
  exists ret m mask,
    _check_month p st ddate = Some (ret, set_month st m mask)
    \/ _check_month p st ddate = Some (ret, st).
Proof.
  unfold _check_month. destruct (p_monthdays p) as [|x l] eqn:E.
  - exists true, 0, []. now right.
  - rewrite _check_mask_eq. do 3 eexists. left. reflexivity.
Qed.

Lemma _check_week_total p st ddate :
  exists ret w mask,
    _check_week p st ddate = Some (ret, set_week st w mask)
    \/ _check_week p st ddate = Some (ret, st).
Proof.
  unfold _check_week. destruct (p_weekdays p) as [|x l] eqn:E.
  - exists true, 0, []. now right.
  - destruct (isocalendar ddate) as [[y w] k].
    rewrite _check_mask_eq. do 3 eexists. left. reflexivity.
Qed.

Lemma set_month_id st : set_month st (_curmonth st) (_monthmask st) = st.
Proof. destruct st; reflexivity. Qed.

Lemma set_week_id st : set_week st (_curweek st) (_weekmask st) = st.
Proof. destruct st; reflexivity. Qed.

Lemma _check_month_eq p st ddate :
  exists m mask,
    _check_month p st ddate = Some (month_ok p st ddate, set_month st m mask).
Proof.
  unfold month_ok.
  destruct (_check_month_total p st ddate) as (ret & m & mask & [H|H]);
    rewrite H.
  - now exists m, mask.
  - exists (_curmonth st), (_monthmask st). now rewrite set_month_id.
Qed.

Lemma _check_week_eq p st ddate :
  exists w mask,
    _check_week p st ddate = Some (week_ok p st ddate, set_week st w mask).
Proof.
  unfold week_ok.
  destruct (_check_week_total p st ddate) as (ret & w & mask & [H|H]);
    rewrite H.
  - now exists w, mask.
  - exists (_curweek st), (_weekmask st). now rewrite set_week_id.
Qed.

Lemma month_ok_ext p st st' ddate :
  _curmonth st' = _curmonth st -> _monthmask st' = _monthmask st ->
  month_ok p st' ddate = month_ok p st ddate.
Proof.
  intros H1 H2. unfold month_ok, _check_month.
  destruct (p_monthdays p); [reflexivity|].
  rewrite !_check_mask_eq, H1, H2. reflexivity.
Qed.

Lemma week_ok_ext p st st' ddate :
  _curweek st' = _curweek st -> _weekmask st' = _weekmask st ->
  week_ok p st' ddate = week_ok p st ddate.
Proof.
  intros H1 H2. unfold week_ok, _check_week.
  destruct (p_weekdays p); [reflexivity|].
  destruct (isocalendar ddate) as [[y w] k].
  rewrite !_check_mask_eq, H1, H2. reflexivity.
Qed.

(** ** The day change *)

Lemma date_rollover_old p st ddate :
  ddate <= _curdate st -> date_rollover p st ddate = Some (true, st).
Proof.
  intros H. unfold date_rollover.
  destruct (Z.ltb_spec (_curdate st) ddate); [lia|reflexivity].
Qed.

Lemma date_rollover_new p st ddate :
  _curdate st < ddate ->
  exists st1,
    date_rollover p st ddate =
      Some (date_accepted p st ddate,
            if date_accepted p st ddate then st1
            else _reset_when st1 (Some ddate)) /\
    same_timer st st1 /\ _curdate st1 = ddate /\
    calls st1 = calls st ++ filters_trace p st ddate.
Proof.
  intros H. unfold date_rollover, date_accepted, filters_trace, allow_ok.
  destruct (Z.ltb_spec (_curdate st) ddate) as [_|]; [|lia].
  set (sa := record_call (set_curdate st ddate) (EvMonth ddate)).
  destruct (_check_month_eq p sa ddate) as (m & mask & Hm). rewrite Hm.
  rewrite (month_ok_ext p st sa ddate) by reflexivity.
  destruct (month_ok p st ddate); cbn [andb].
  - set (sb := record_call (set_month sa m mask) (EvWeek ddate)).
    destruct (_check_week_eq p sb ddate) as (w & wmask & Hw). rewrite Hw.
    rewrite (week_ok_ext p st sb ddate) by reflexivity.
    destruct (week_ok p st ddate); cbn [andb].
    + destruct (p_allow p) as [f|].
      * exists (record_call (set_week sb w wmask) (EvAllow ddate)).
        destruct (f ddate); (split; [reflexivity|]);
          (split; [now repeat split|]); (split; [reflexivity|]);
          simpl; rewrite <- !app_assoc; reflexivity.
      * exists (set_week sb w wmask).
        (split; [reflexivity|]); (split; [now repeat split|]);
          (split; [reflexivity|]); simpl; rewrite <- !app_assoc; reflexivity.
    + exists (set_week sb w wmask).
      assert (Hres : forall o : option (date -> bool),
                (let '(ret, st0) :=
                   match o with
                   | Some _ => (false, set_week sb w wmask)
                   | None => (false, set_week sb w wmask)
                   end in
                 if ret then Some (true, st0)
                 else Some (false, _reset_when st0 (Some ddate))) =
                Some (false, _reset_when (set_week sb w wmask) (Some ddate)))
        by (intros [?|]; reflexivity).
      rewrite Hres.
      (split; [reflexivity|]); (split; [now repeat split|]);
        (split; [reflexivity|]); simpl; rewrite <- !app_assoc; reflexivity.
  - exists (set_month sa m mask).
    assert (Hres : forall o : option (date -> bool),
              (let '(ret, st0) :=
                 match o with
                 | Some _ => (false, set_month sa m mask)
                 | None => (false, set_month sa m mask)
                 end in
               if ret then Some (true, st0)
               else Some (false, _reset_when st0 (Some ddate))) =
              Some (false, _reset_when (set_month sa m mask) (Some ddate)))
      by (intros [?|]; reflexivity).
    rewrite Hres.
    (split; [reflexivity|]); (split; [now repeat split|]);
      (split; [reflexivity|]); reflexivity.
Qed.

Lemma date_rollover_rolled p st ddate :
  exists ret st1,
    date_rollover p st ddate = Some (ret, st1) /\ rolled st ddate ret st1.
Proof.
  destruct (Z.lt_ge_cases (_curdate st) ddate) as [Hlt|Hge].
  - destruct (date_rollover_new p st ddate Hlt)
      as (st1 & Heq & Hsame & Hcur & _).
    destruct Hsame as (H1 & H2 & H3 & H4 & H5 & H6 & H7 & H8).
    rewrite Heq. eexists _, _. split; [reflexivity|].
    destruct (date_accepted p st ddate); unfold rolled; simpl;
      repeat split; try assumption; try discriminate; lia.
  - rewrite date_rollover_old by assumption.
    eexists _, _. split; [reflexivity|].
    unfold rolled; repeat split; try discriminate; lia.
Qed.

(** ** Single calls of [check] *)

Lemma check_marked p st dt :
  _lastcall st = Some (sample_date dt) -> check p st dt = Some (st, false).
Proof.
  intros H. unfold check, eq_lastcall. fold (sample_date dt).
  rewrite H, Z.eqb_refl. reflexivity.
Qed.

Lemma resolve_cases p st ddate :
  (exists dtwhen, _dtwhen st = Some dtwhen /\
     resolve p st ddate = (st, _dwhen st, dtwhen)) \/
  (exists dwhen, _dtwhen st = None /\
     dwhen = combine ddate (_when st) + p_offset p /\
     resolve p st ddate =
       (set_target st (Some dwhen) (Some (localize st dwhen)),
        Some dwhen, localize st dwhen)).
Proof.
  unfold resolve. destruct (_dtwhen st) as [dtwhen|].
  - left. eauto.
  - right. exists (combine ddate (_when st) + p_offset p).
    split; [reflexivity|]. split; [reflexivity|].
    destruct (Z.eqb_spec (p_offset p) 0) as [->|];
      rewrite ?Z.add_0_r; reflexivity.
Qed.






(** ** [_lastcall] over a run *)

Lemma session_rollover_lastcall st dt d ddate :
  _lastcall (session_rollover st dt d ddate) = _lastcall st \/
  _lastcall (session_rollover st dt d ddate) = None.
Proof.
  unfold session_rollover. destruct (_ <? _); [now right|now left].
Qed.

Lemma check_lastcall p st dt st' b :
  check p st dt = Some (st', b) ->
  _lastcall st' = _lastcall st \/ _lastcall st' = None \/
  _lastcall st' = Some (sample_date dt).
Proof.
  intros H. unfold check in H. fold (sample_date dt) in H.
  destruct (eq_lastcall _ _); [injection H as <- _; now left|].
  pose proof (session_rollover_lastcall st dt (num2date dt None)
                (sample_date dt)) as Hs.
  set (s1 := session_rollover _ _ _ _) in *.
  destruct (date_rollover_rolled p s1 (sample_date dt))
    as (ret & s2 & Heq & Hroll); rewrite Heq in H.
  destruct Hroll as (_ & _ & _ & _ & _ & Ht & Hf).
  destruct ret.
  2:{ injection H as <- _. destruct Hf as (-> & _); auto. }
  destruct Ht as (_ & _ & _ & Hl); [reflexivity|].
  assert (Hs3 : forall s3 dwhen dtwhen,
            resolve p s2 (sample_date dt) = (s3, dwhen, dtwhen) ->
            _lastcall s3 = _lastcall s2).
  { intros s3 dwhen dtwhen Hres.
    destruct (resolve_cases p s2 (sample_date dt))
      as [(x & _ & E)|(x & _ & _ & E)]; rewrite E in Hres;
      injection Hres as <- _ _; reflexivity. }
  unfold target_met in H.
  destruct (resolve p s2 (sample_date dt)) as [[s3 dwhen] dtwhen] eqn:Hres.
  specialize (Hs3 _ _ _ eq_refl).
  destruct (dt <? dtwhen).
  { injection H as <- _. rewrite Hs3, Hl. destruct Hs; auto. }
  unfold fire in H.
  destruct (p_repeat p =? 0); [injection H as <- _; auto|].
  destruct dwhen as [w|]; [|discriminate].
  destruct (repeat_loop _ _ _ _ _) as [[|w']|]; [| |discriminate].
  { injection H as <- _; auto. }
  injection H as <- _. cbn [_lastcall set_target].
  replace (_lastcall _) with (_lastcall s3)
    by (destruct (_ <? _); reflexivity).
  rewrite Hs3, Hl. destruct Hs; auto.
Qed.

Lemma run_lastcall p : forall ts st st' bs,
  run p st ts = Some (st', bs) ->
  _lastcall st' = _lastcall st \/ _lastcall st' = None \/
  exists t, In t ts /\ _lastcall st' = Some (sample_date t).
Proof.
  induction ts as [|t ts IH]; intros st st' bs H; cbn [run] in H.
  - injection H as <- _. now left.
  - destruct (check p st t) as [[s1 b]|] eqn:Hc; [|discriminate].
    destruct (run p s1 ts) as [[s2 bs']|] eqn:Hr; [|discriminate].
    injection H as <- _.
    destruct (IH _ _ _ Hr) as [E|[E|(t' & Hin & E)]].
    + rewrite E. destruct (check_lastcall _ _ _ _ _ Hc) as [E'|[E'|E']];
        auto. right; right. exists t. split; [now left|assumption].
    + auto.
    + right; right. exists t'. split; [now right|assumption].
Qed.

Lemma start_lastcall p data st : start p data = Some st -> _lastcall st = None.
Proof.
  unfold start. intros H.
  destruct (p_when p) as [t|n].
  - injection H as <-. reflexivity.
  - destruct (n =? SESSION_START).
    + destruct (p_tzdata p) as [|z|f]; try discriminate;
        injection H as <-; reflexivity.
    + destruct (n =? SESSION_END); [|discriminate].
      destruct (p_tzdata p) as [|z|f]; try discriminate;
        injection H as <-; reflexivity.
Qed.

Lemma reached_lastcall p data ts st a :
  reached p data ts st -> _lastcall st = Some a ->
  exists t, In t ts /\ a = sample_date t.
Proof.
  intros (st0 & bs & Hs & Hr) Ha.
  destruct (run_lastcall _ _ _ _ _ Hr) as [E|[E|(t & Hin & E)]].
  - rewrite (start_lastcall _ _ _ Hs) in E. congruence.
  - congruence.
  - exists t. split; [assumption|congruence].
Qed.

Lemma nondecreasing_app ts1 : forall ts2 t1 t2,
  nondecreasing (ts1 ++ ts2) -> In t1 ts1 -> In t2 ts2 -> t1 <= t2.
Proof.
  induction ts1 as [|t ts1 IH]; intros ts2 t1 t2 H H1 H2; [destruct H1|].
  cbn in H. destruct H as (Hle & Hnd). destruct H1 as [<-|H1].
  - apply Hle. apply in_or_app. now right.
  - eapply IH; eassumption.
Qed.

(** Concrete runs: the samples are in order. *)
Ltac solve_nondecreasing :=
  cbn [app nondecreasing]; repeat split;
  let Hin := fresh "Hin" in
  intros ? Hin;
  repeat (destruct Hin as [<-|Hin]; [vm_compute; discriminate|]);
  destruct Hin.

Lemma sample_date_mono t1 t2 : t1 <= t2 -> sample_date t1 <= sample_date t2.
Proof.
  intros H. unfold sample_date, date_of, num2date.
  apply Z.div_le_mono; [reflexivity|assumption].
Qed.

(** C5, as amended. After [start], over calls of [check] with non-decreasing
    timestamps, a call (and so a run of calls) leaves [_lastcall] as it was,
    puts it back to the never-fired value (a session rollover), or sets it to
    the date of a timestamp it was called with; and a date [_lastcall] holds
    at some point of the run is never later than a date it holds further
    on. *)
Theorem lastcall_dates_never_decrease p data ts st ts' st' bs :
  reached p data ts st ->
  nondecreasing (ts ++ ts') ->
  run p st ts' = Some (st', bs) ->
  (_lastcall st' = _lastcall st \/ _lastcall st' = None \/
   exists t, In t ts' /\ _lastcall st' = Some (sample_date t)) /\
  (forall a a', _lastcall st = Some a -> _lastcall st' = Some a' -> a <= a').
Proof.
  intros Hreach Hnd Hrun. split.
  - eapply run_lastcall; eassumption.
  - intros a a' Ha Ha'.
    destruct (run_lastcall _ _ _ _ _ Hrun) as [E|[E|(t' & Hin' & E)]].
    + assert (a = a') by congruence. lia.
    + congruence.
    + destruct (reached_lastcall _ _ _ _ _ Hreach Ha) as (t & Hin & ->).
      assert (a' = sample_date t') by congruence. subst a'.
      apply sample_date_mono. eapply nondecreasing_app; eassumption.
Qed.

(** The theorem at a run of two days: a fire on 2024-01-10, then two samples
    on 2024-01-11, the second of which fires. *)
Lemma lastcall_dates_never_decrease_witness :
  exists st st',
    reached daily_0900 no_feed [combine 738895 (hms 10 0 0 0)] st /\
    _lastcall st = Some 738895 /\ _lastcall st' = Some 738896 /\
    forall a a', _lastcall st = Some a -> _lastcall st' = Some a' -> a <= a'.
Proof.
  assert (H1 : exists st,
             run daily_0900 (started (hms 9 0 0 0) TzNone)
                 [combine 738895 (hms 10 0 0 0)] = Some (st, [true]))
    by (eexists; vm_compute; reflexivity).
  destruct H1 as (st & H1).
  assert (H2 : exists st',
             run daily_0900 st [combine 738896 (hms 8 0 0 0);
                                combine 738896 (hms 9 0 0 0)]
             = Some (st', [false; true]) /\
             _lastcall st = Some 738895 /\ _lastcall st' = Some 738896).
  { vm_compute in H1. injection H1 as <-. eexists. vm_compute.
    repeat split. }
  destruct H2 as (st' & H2 & Hl & Hl').
  assert (Hreach : reached daily_0900 no_feed
                     [combine 738895 (hms 10 0 0 0)] st)
    by (eexists _, _; split; [reflexivity|exact H1]).
  exists st, st'. repeat split; try assumption.
  refine (proj2 (lastcall_dates_never_decrease daily_0900 no_feed _ st _ st' _
                   Hreach _ H2)).
  solve_nondecreasing.
Defined.

(** C5 as it is stated fails: after a fire on 2024-01-10 the first sample of
    2024-01-11 passes the end of the session, and [_lastcall] goes from that
    date back to the never-fired value. *)
Lemma lastcall_moves_backward :
  ~ (forall p data ts st dt st' b,
       reached p data ts st -> nondecreasing (ts ++ [dt]) ->
       check p st dt = Some (st', b) ->
       lastcall_le (_lastcall st) (_lastcall st')).
Proof.
  intros H.
  assert (H1 : exists st,
             run daily_0900 (started (hms 9 0 0 0) TzNone)
                 [combine 738895 (hms 10 0 0 0)] = Some (st, [true]))
    by (eexists; vm_compute; reflexivity).
  destruct H1 as (st & H1).
  assert (H2 : exists st',
             check daily_0900 st (combine 738896 (hms 8 0 0 0))
             = Some (st', false) /\
             _lastcall st = Some 738895 /\ _lastcall st' = None).
  { vm_compute in H1. injection H1 as <-. eexists. vm_compute.
    repeat split. }
  destruct H2 as (st' & H2 & Hl & Hl').
  specialize (H daily_0900 no_feed [combine 738895 (hms 10 0 0 0)] st
                (combine 738896 (hms 8 0 0 0)) st' false).
  rewrite Hl, Hl' in H. apply H.
  - eexists _, _; split; [reflexivity|exact H1].
  - solve_nondecreasing.
  - exact H2.
Qed.

(** ** The month-day filter on the day after a skipped entry *)

(** Whatever the carry flag, when entries of the mask lie before the day and
    entries remain at or after it, [curday] is true, since [bisect_right]
    started at [dc > 0] cannot answer [0]: the filter lets the day through
    and pops one entry more than the [dc] skipped ones. *)
Lemma _check_mask_after_skipped days carry cur mask key dday :
  let mask1 := if negb (key =? cur) then days else mask in
  let dc := bisect_left mask1 dday 0 in
  (0 < dc < length mask1)%nat ->
  _check_mask days carry cur mask key dday =
    Some (true, (if negb (key =? cur) then key else cur,
                 skipn (S dc) mask1)).
Proof.
  intros mask1 dc Hdc. rewrite _check_mask_eq. fold mask1. fold dc.
  pose proof (bisect_right_ge mask1 dday dc ltac:(lia)) as Hge.
  destruct (Nat.ltb_spec dc (length mask1)) as [_|]; [|lia].
  destruct (Nat.ltb_spec 0 (bisect_right mask1 dday dc)) as [_|]; [|lia].
  cbn [andb b2n]. rewrite orb_true_r, Nat.add_1_r. reflexivity.
Qed.

(** C2, at its failing input. Filter 5, 15, 25 with carry, first evaluation
    of the month on 2024-01-10: the filter returns true, and the mask it
    leaves is 25 alone: entry 15, still ahead, is consumed together with the
    skipped entry 5. *)
Theorem month_carry_day10_consumes_15 :
  month_of 738895 = 1 /\ day_of 738895 = 10 /\
  exists st',
    _check_month (monthly_5_15_25 true) (started (hms 9 0 0 0) TzNone) 738895
      = Some (true, st') /\
    _monthmask st' = [25].
Proof.
  split; [reflexivity|]. split; [reflexivity|].
  eexists. split; [vm_compute; reflexivity|reflexivity].
Qed.

(** C3, at its failing input. The same filter without carry, entry 5 skipped:
    on 2024-01-10, which is not in the filter, the filter returns true. *)
Theorem month_nocarry_day10_passes :
  day_of 738895 = 10 /\ ~ In 10 (p_monthdays (monthly_5_15_25 false)) /\
  month_ok (monthly_5_15_25 false) (started (hms 9 0 0 0) TzNone) 738895
    = true.
Proof.
  split; [reflexivity|]. split; [|reflexivity].
  cbn. intros [H|[H|[H|[]]]]; discriminate.
Qed.

(** ** The timestamp cached by the repeat path *)

(** The two ways of computing the timestamp of a wall-clock time agree
    exactly when the UTC offset at that time is zero. *)
Lemma date2num_tz_agree tz w :
  date2num w None = date2num w (Some tz) <-> utcoffset_local tz w = 0.
Proof. unfold date2num. lia. Qed.

(** C10, at its failing input. Timezone five hours behind UTC, target 09:30
    local, repeat 45 minutes. The sample at 14:30 UTC (09:30 local) fires; the
    loop stops at the wall-clock time 14:45 and the timestamp cached for it is
    14:45 UTC, while the resolution path of lines 191-194 gives 19:45 UTC for
    the same wall-clock time. *)
Theorem repeat_path_drops_timezone :
  let st := started (hms 9 30 0 0) (TzInfo utc_minus_5) in
  let dt := combine 738895 (hms 14 30 0 0) in
  let w' := combine 738895 (hms 14 45 0 0) in
  exists st',
    check repeat_0930_local st dt = Some (st', true) /\
    lastwhen st' = Some (combine 738895 (hms 9 30 0 0)) /\
    _dtwhen st' = Some (date2num w' None) /\
    localize st' w' = date2num w' (Some utc_minus_5) /\
    date2num w' None = combine 738895 (hms 14 45 0 0) /\
    date2num w' (Some utc_minus_5) = combine 738895 (hms 19 45 0 0).
Proof.
  eexists. split; [vm_compute; reflexivity|]. repeat split.
Qed.

(** ** What the phases of [check] leave untouched *)

Lemma same_filters_refl st : same_filters st st.
Proof. now repeat split. Qed.

Lemma same_filters_trans s1 s2 s3 :
  same_filters s1 s2 -> same_filters s2 s3 -> same_filters s1 s3.
Proof.
  unfold same_filters. intros H1 H2.
  decompose [and] H1. decompose [and] H2. repeat split; congruence.
Qed.

Lemma session_rollover_frame st dt d ddate :
  same_filters st (session_rollover st dt d ddate).
Proof.
  unfold session_rollover. destruct (_ <? _); now repeat split.
Qed.

Lemma resolve_frame p st ddate s3 dwhen dtwhen :
  resolve p st ddate = (s3, dwhen, dtwhen) ->
  same_filters st s3 /\ _lastcall s3 = _lastcall st /\
  _nexteos s3 = _nexteos st /\ lastwhen s3 = lastwhen st /\
  _when s3 = _when st /\ _dtwhen s3 = Some dtwhen /\ _dwhen s3 = dwhen.
Proof.
  intros H.
  destruct (resolve_cases p st ddate) as [(x & Hx & E)|(x & _ & _ & E)];
    rewrite E in H; injection H as <- <- <-; now repeat split.
Qed.

Lemma fire_frame p st dt d ddate dwhen st' b :
  fire p st dt d ddate dwhen = Some (st', b) ->
  same_filters st st' /\ b = true /\ lastwhen st' = dwhen.
Proof.
  unfold fire. intros H.
  destruct (p_repeat p =? 0); [injection H as <- <-; now repeat split|].
  set (s4 := if _ <? _ then _ else _) in H.
  assert (H4 : same_filters st s4 /\ lastwhen s4 = dwhen)
    by (subst s4; destruct (_ <? _); now repeat split).
  destruct H4 as (H4 & Hl).
  destruct dwhen as [w|]; [|discriminate].
  destruct (repeat_loop _ _ _ _ _) as [[|w']|]; [| |discriminate];
    injection H as <- <-; (split; [|split; [reflexivity|exact Hl]]);
    (eapply same_filters_trans; [exact H4|now repeat split]).
Qed.

Lemma target_met_frame p st dt d ddate st' b :
  target_met p st dt d ddate = Some (st', b) -> same_filters st st'.
Proof.
  unfold target_met. intros H.
  destruct (resolve p st ddate) as [[s3 dwhen] dtwhen] eqn:Hres.
  apply resolve_frame in Hres as (H3 & _).
  destruct (dt <? dtwhen); [injection H as <- _; exact H3|].
  apply fire_frame in H as (H & _).
  eapply same_filters_trans; eassumption.
Qed.

(** A call made when the date was already tracked evaluates no filter. *)
Lemma check_same_date p st dt st' b :
  sample_date dt <= _curdate st ->
  check p st dt = Some (st', b) -> same_filters st st'.
Proof.
  intros Hcur H. unfold check in H. fold (sample_date dt) in H.
  destruct (eq_lastcall _ _);
    [injection H as <- _; apply same_filters_refl|].
  pose proof (session_rollover_frame st dt (num2date dt None)
                (sample_date dt)) as Hs.
  set (s1 := session_rollover _ _ _ _) in *.
  rewrite date_rollover_old in H by (destruct Hs as (-> & _); exact Hcur).
  apply target_met_frame in H.
  eapply same_filters_trans; eassumption.
Qed.

Lemma check_curdate p st dt st' b :
  check p st dt = Some (st', b) ->
  st' = st \/ _curdate st' = Z.max (_curdate st) (sample_date dt).
Proof.
  intros H. unfold check in H. fold (sample_date dt) in H.
  destruct (eq_lastcall _ _); [injection H as <- _; now left|]. right.
  pose proof (session_rollover_frame st dt (num2date dt None)
                (sample_date dt)) as (Hs & _).
  set (s1 := session_rollover _ _ _ _) in *.
  destruct (date_rollover_rolled p s1 (sample_date dt))
    as (ret & s2 & Heq & Hroll); rewrite Heq in H.
  destruct Hroll as (_ & _ & _ & _ & Hcur & _).
  destruct ret; [|injection H as <- _; congruence].
  apply target_met_frame in H as (-> & _). congruence.
Qed.

Lemma check_lastcall_seen p st dt st' b :
  check p st dt = Some (st', b) -> lastcall_seen st -> lastcall_seen st'.
Proof.
  intros H Hinv a Ha.
  destruct (check_curdate _ _ _ _ _ H) as [->|Hcur]; [now apply Hinv|].
  destruct (check_lastcall _ _ _ _ _ H) as [E|[E|E]].
  - rewrite E in Ha. apply Hinv in Ha. lia.
  - congruence.
  - assert (a = sample_date dt) by congruence. lia.
Qed.

Lemma run_lastcall_seen p : forall ts st st' bs,
  run p st ts = Some (st', bs) -> lastcall_seen st -> lastcall_seen st'.
Proof.
  induction ts as [|t ts IH]; intros st st' bs H Hinv; cbn [run] in H.
  - injection H as <- _. assumption.
  - destruct (check p st t) as [[s1 b]|] eqn:Hc; [|discriminate].
    destruct (run p s1 ts) as [[s2 bs']|] eqn:Hr; [|discriminate].
    injection H as <- _.
    eapply IH; [eassumption|]. eapply check_lastcall_seen; eassumption.
Qed.

Lemma reached_lastcall_seen p data ts st :
  reached p data ts st -> lastcall_seen st.
Proof.
  intros (st0 & bs & Hs & Hr).
  eapply run_lastcall_seen; [eassumption|].
  intros a Ha. rewrite (start_lastcall _ _ _ Hs) in Ha. discriminate.
Qed.

Lemma date_accepted_ext p st st' ddate :
  same_filters st st' ->
  date_accepted p st' ddate = date_accepted p st ddate /\
  filters_trace p st' ddate = filters_trace p st ddate.
Proof.
  intros (_ & H1 & H2 & H3 & H4 & _).
  unfold date_accepted, filters_trace.
  rewrite (month_ok_ext p st st' ddate H1 H2).
  rewrite (week_ok_ext p st st' ddate H3 H4). split; reflexivity.
Qed.

(** The call that meets a new date, in a state where [_lastcall] is not
    ahead of the tracked date. *)
Lemma check_new_date p st dt :
  lastcall_seen st ->
  _curdate st < sample_date dt ->
  (date_accepted p st (sample_date dt) = false ->
   exists st',
     check p st dt = Some (st', false) /\
     _lastcall st' = Some (sample_date dt) /\
     _curdate st' = sample_date dt /\
     calls st' = calls st ++ filters_trace p st (sample_date dt)) /\
  (date_accepted p st (sample_date dt) = true ->
   forall st' b, check p st dt = Some (st', b) ->
     _curdate st' = sample_date dt /\
     calls st' = calls st ++ filters_trace p st (sample_date dt)).
Proof.
  intros Hseen Hcur.
  assert (Hne : eq_lastcall (_lastcall st) (sample_date dt) = false).
  { unfold eq_lastcall. destruct (_lastcall st) as [a|] eqn:Ha;
      [|reflexivity].
    apply Hseen in Ha. apply Z.eqb_neq. lia. }
  pose proof (session_rollover_frame st dt (num2date dt None)
                (sample_date dt)) as Hs.
  assert (Hunf : forall s1,
            s1 = session_rollover st dt (num2date dt None) (sample_date dt) ->
            check p st dt =
              match date_rollover p s1 (sample_date dt) with
              | None => None
              | Some (false, s) => Some (s, false)
              | Some (true, s) =>
                  target_met p s dt (num2date dt None) (sample_date dt)
              end).
  { intros s1 ->. unfold check. fold (sample_date dt). rewrite Hne.
    reflexivity. }
  set (s1 := session_rollover _ _ _ _) in *.
  specialize (Hunf s1 eq_refl).
  destruct (date_rollover_new p s1 (sample_date dt))
    as (s2 & Heq & _ & Hc2 & Hcalls);
    [destruct Hs as (-> & _); exact Hcur|].
  destruct (date_accepted_ext p st s1 (sample_date dt) Hs) as (Ea & Et).
  rewrite Ea, Et in *.
  replace (calls s1) with (calls st) in Hcalls
    by (destruct Hs as (_ & _ & _ & _ & _ & -> & _); reflexivity).
  rewrite Heq in Hunf. split.
  - intros Hrej. rewrite Hrej in Hunf.
    exists (_reset_when s2 (Some (sample_date dt))).
    split; [exact Hunf|]. split; [reflexivity|].
    split; [exact Hc2|exact Hcalls].
  - intros Hacc st' b Hc. rewrite Hacc in Hunf. rewrite Hunf in Hc.
    apply target_met_frame in Hc as (-> & _ & _ & _ & _ & -> & _).
    split; assumption.
Qed.

(** C7. After [start], on a call whose date is later than the tracked date,
    [check] tracks the new date and calls the month-day filter, then the
    week-day filter only if the first passed, then the allow predicate only
    if both passed. When one of them rejects the date the call returns
    false with [_lastcall] set to the date, and every later call on that date
    returns false without touching the state. Whatever the outcome, a call
    on a date that is already tracked evaluates none of the three. *)
Theorem day_change_filters_in_order p data ts st dt :
  reached p data ts st ->
  _curdate st < sample_date dt ->
  (date_accepted p st (sample_date dt) = false ->
   exists st',
     check p st dt = Some (st', false) /\
     _lastcall st' = Some (sample_date dt) /\
     _curdate st' = sample_date dt /\
     calls st' = calls st ++ filters_trace p st (sample_date dt) /\
     forall dt', sample_date dt' = sample_date dt ->
       check p st' dt' = Some (st', false)) /\
  (date_accepted p st (sample_date dt) = true ->
   forall st' b, check p st dt = Some (st', b) ->
     _curdate st' = sample_date dt /\
     calls st' = calls st ++ filters_trace p st (sample_date dt)) /\
  (forall s dt' s' b,
     _curdate s = sample_date dt -> sample_date dt' = sample_date dt ->
     check p s dt' = Some (s', b) ->
     calls s' = calls s /\ _curdate s' = sample_date dt).
Proof.
  intros Hreach Hcur.
  pose proof (reached_lastcall_seen _ _ _ _ Hreach) as Hseen.
  destruct (check_new_date p st dt Hseen Hcur) as (Hrej & Hacc).
  split; [|split].
  - intros Hr. destruct (Hrej Hr) as (st' & Hc & Hl & Hd & Hcalls).
    exists st'. repeat split; try assumption.
    intros dt' Hd'. apply check_marked. now rewrite Hd'.
  - exact Hacc.
  - intros s dt' s' b Hs0 Hd Hc.
    apply check_same_date in Hc as (-> & _ & _ & _ & _ & -> & _);
      [split; [reflexivity|assumption]|lia].
Qed.

(** The theorem on 2024-01-10, a Wednesday: the month-day and week-day
    filters pass, the allow predicate vetoes. *)
Lemma day_change_filters_in_order_witness :
  exists st',
    check vetoed_0900 (started (hms 9 0 0 0) TzNone)
          (combine 738895 (hms 10 0 0 0)) = Some (st', false) /\
    _lastcall st' = Some 738895 /\
    calls st' = [EvMonth 738895; EvWeek 738895; EvAllow 738895].
Proof.
  assert (Hreach : reached vetoed_0900 no_feed []
                     (started (hms 9 0 0 0) TzNone))
    by (eexists _, _; split; reflexivity).
  destruct (day_change_filters_in_order vetoed_0900 no_feed []
              (started (hms 9 0 0 0) TzNone)
              (combine 738895 (hms 10 0 0 0)) Hreach)
    as (Hrej & _); [reflexivity|].
  destruct (Hrej eq_refl) as (st' & Hc & Hl & _ & Hcalls & _).
  exists st'. repeat split; assumption.
Defined.

(** ** The veto of the allow predicate *)

Lemma start_started p data st :
  start p data = Some st -> exists t tzd, st = started t tzd.
Proof.
  unfold start. intros H.
  destruct (p_when p) as [t|n].
  - injection H as <-. eauto.
  - destruct (n =? SESSION_START).
    + destruct (p_tzdata p) as [|z|f]; try discriminate;
        injection H as <-; eauto.
    + destruct (n =? SESSION_END); [|discriminate].
      destruct (p_tzdata p) as [|z|f]; try discriminate;
        injection H as <-; eauto.
Qed.

Lemma date_accepted_veto p st ddate f :
  p_allow p = Some f -> f ddate = false -> date_accepted p st ddate = false.
Proof.
  intros Hf Hv. unfold date_accepted, allow_ok. rewrite Hf, Hv.
  apply andb_false_r.
Qed.

Lemma check_vetoed p st dt st' b :
  check p st dt = Some (st', b) ->
  lastcall_seen st ->
  _curdate st <= Z.max date_min (sample_date dt) ->
  vetoed p st -> vetoed p st'.
Proof.
  intros Hc Hseen Hle Hv.
  destruct (check_curdate _ _ _ _ _ Hc) as [->|Hcur]; [assumption|].
  intros f Hf Hfalse Hmin.
  destruct (Z.lt_ge_cases (_curdate st) (sample_date dt)) as [Hlt|Hge].
  - rewrite Hcur, Z.max_r in * by lia.
    destruct (check_new_date p st dt Hseen Hlt) as (Hrej & _).
    destruct (Hrej (date_accepted_veto _ _ _ _ Hf Hfalse))
      as (s & Hs & Hl & _).
    rewrite Hs in Hc. injection Hc as <- _. assumption.
  - rewrite Hcur, Z.max_l in * by lia.
    assert (Hd : sample_date dt = _curdate st) by lia.
    specialize (Hv f Hf Hfalse Hmin).
    rewrite check_marked in Hc by congruence.
    injection Hc as <- _. assumption.
Qed.

Lemma nondecreasing_tail ts1 : forall ts2,
  nondecreasing (ts1 ++ ts2) -> nondecreasing ts2.
Proof.
  induction ts1 as [|t ts1 IH]; intros ts2 H; [exact H|].
  apply IH. exact (proj2 H).
Qed.

Lemma run_vetoed p : forall ts st st' bs dt,
  run p st ts = Some (st', bs) ->
  nondecreasing (ts ++ [dt]) ->
  lastcall_seen st -> vetoed p st ->
  _curdate st <= date_min \/
    (forall t, In t (ts ++ [dt]) -> _curdate st <= sample_date t) ->
  vetoed p st' /\ lastcall_seen st' /\
  _curdate st' <= Z.max date_min (sample_date dt).
Proof.
  induction ts as [|t ts IH]; intros st st' bs dt H Hnd Hseen Hv Hle;
    cbn [run] in H.
  - injection H as <- _. repeat split; try assumption.
    destruct Hle as [Hle|Hle]; [lia|].
    specialize (Hle dt (or_introl eq_refl)). lia.
  - destruct (check p st t) as [[s1 b]|] eqn:Hc; [|discriminate].
    destruct (run p s1 ts) as [[s2 bs']|] eqn:Hr; [|discriminate].
    injection H as <- _.
    assert (Hlt : _curdate st <= Z.max date_min (sample_date t)).
    { destruct Hle as [Hle|Hle]; [lia|].
      specialize (Hle t (or_introl eq_refl)). lia. }
    eapply IH; try eassumption.
    + exact (proj2 Hnd).
    + eapply check_lastcall_seen; eassumption.
    + eapply check_vetoed; eassumption.
    + destruct (check_curdate _ _ _ _ _ Hc) as [->|Hcur].
      * destruct Hle as [Hle|Hle]; [now left|right].
        intros t' Hin. apply Hle. now right.
      * rewrite Hcur.
        destruct (Z.le_gt_cases (Z.max (_curdate st) (sample_date t))
                    date_min) as [Hm|Hm]; [now left|right].
        intros t' Hin.
        assert (Ht : sample_date t <= sample_date t')
          by (apply sample_date_mono; apply (proj1 Hnd); exact Hin).
        destruct Hle as [Hle|Hle]; [lia|].
        specialize (Hle t' (or_intror Hin)). lia.
Qed.

(** C6, as amended. After [start], over calls with non-decreasing
    timestamps, when the allow predicate answers false for a date later than
    [date.min] (the date the timer starts with), every call of [check] with a
    timestamp on that date returns false, whatever the target time, the
    offset and the other filters. *)
Theorem veto_persists_for_the_date p data ts st dt f :
  reached p data ts st ->
  nondecreasing (ts ++ [dt]) ->
  p_allow p = Some f ->
  f (sample_date dt) = false ->
  date_min < sample_date dt ->
  exists st', check p st dt = Some (st', false).
Proof.
  intros (st0 & bs & Hs & Hr) Hnd Hf Hfalse Hmin.
  destruct (start_started _ _ _ Hs) as (t0 & tzd & ->).
  destruct (run_vetoed p ts _ _ _ dt Hr Hnd) as (Hv & Hseen & Hle).
  - intros a Ha. discriminate.
  - intros g _ _ Hlt. cbn in Hlt. lia.
  - left. cbn. lia.
  - rewrite Z.max_r in Hle by lia.
    destruct (Z.lt_ge_cases (_curdate st) (sample_date dt)) as [Hlt|Hge].
    + destruct (check_new_date p st dt Hseen Hlt) as (Hrej & _).
      destruct (Hrej (date_accepted_veto _ _ _ _ Hf Hfalse))
        as (s & Hc & _).
      eauto.
    + assert (Hd : _curdate st = sample_date dt) by lia.
      exists st. apply check_marked. rewrite <- Hd.
      apply (Hv f Hf); [now rewrite Hd|lia].
Qed.

(** The theorem on a vetoed 2024-01-10: the call after the target time
    returns false, as the one before did. *)
Lemma veto_persists_for_the_date_witness :
  exists st st',
    run vetoed_0900 (started (hms 9 0 0 0) TzNone)
        [combine 738895 (hms 8 0 0 0)] = Some (st, [false]) /\
    check vetoed_0900 st (combine 738895 (hms 10 0 0 0)) = Some (st', false).
Proof.
  assert (H1 : exists st,
             run vetoed_0900 (started (hms 9 0 0 0) TzNone)
                 [combine 738895 (hms 8 0 0 0)] = Some (st, [false]))
    by (eexists; vm_compute; reflexivity).
  destruct H1 as (st & H1).
  destruct (veto_persists_for_the_date vetoed_0900 no_feed
              [combine 738895 (hms 8 0 0 0)] st
              (combine 738895 (hms 10 0 0 0)) (fun _ => false))
    as (st' & Hc).
  - eexists _, _. split; [reflexivity|exact H1].
  - solve_nondecreasing.
  - reflexivity.
  - reflexivity.
  - reflexivity.
  - exists st, st'. split; assumption.
Defined.

(** C6 as it is stated fails on 0001-01-01: [_curdate] starts at that date,
    so a sample on it is no day change, the allow predicate is not asked,
    and the timer fires at noon although the predicate vetoes every date. *)
Lemma veto_skipped_on_date_min :
  ~ (forall p data ts st dt f st' b,
       reached p data ts st -> nondecreasing (ts ++ [dt]) ->
       p_allow p = Some f -> f (sample_date dt) = false ->
       check p st dt = Some (st', b) -> b = false).
Proof.
  intros H.
  assert (Hc : exists st',
             check vetoed_0900 (started (hms 9 0 0 0) TzNone)
                   (combine date_min (hms 12 0 0 0)) = Some (st', true))
    by (eexists; vm_compute; reflexivity).
  destruct Hc as (st' & Hc).
  specialize (H vetoed_0900 no_feed [] (started (hms 9 0 0 0) TzNone)
                (combine date_min (hms 12 0 0 0)) (fun _ => false) st' true).
  discriminate H.
  - eexists _, _. split; reflexivity.
  - solve_nondecreasing.
  - reflexivity.
  - reflexivity.
  - exact Hc.
Qed.

(** ** The timer fields over a run *)

Lemma fire_timer p st dt d ddate dwhen st' b :
  fire p st dt d ddate dwhen = Some (st', b) ->
  (_when st' = _when st \/ _when st' = _rstwhen st) /\
  (_nexteos st' = _nexteos st \/ _nexteos st' = next_eos st dt ddate).
Proof.
  unfold fire. intros H.
  destruct (p_repeat p =? 0); [injection H as <- _; cbn; auto|].
  set (s4 := if _ <? _ then _ else _) in H.
  assert (H4 : _when s4 = _when st /\ _rstwhen s4 = _rstwhen st /\
               (_nexteos s4 = _nexteos st \/
                _nexteos s4 = next_eos st dt ddate))
    by (subst s4; destruct (_ <? _); cbn; auto).
  destruct H4 as (E1 & E2 & E3).
  destruct dwhen as [w|]; [|discriminate].
  destruct (repeat_loop _ _ _ _ _) as [[|w']|]; [| |discriminate];
    injection H as <- _; cbn; rewrite ?E1, ?E2; auto.
Qed.

Lemma check_timer p st x st' b :
  check p st x = Some (st', b) ->
  _when st = _rstwhen st ->
  _tzdata st' = _tzdata st /\ _rstwhen st' = _rstwhen st /\
  _when st' = _rstwhen st' /\
  (_nexteos st' = _nexteos st \/
   _nexteos st' = next_eos st x (sample_date x)).
Proof.
  intros H Hw. unfold check in H. fold (sample_date x) in H.
  destruct (eq_lastcall _ _); [injection H as <- _; auto|].
  assert (H1 : forall s1,
            s1 = session_rollover st x (num2date x None) (sample_date x) ->
            _tzdata s1 = _tzdata st /\ _rstwhen s1 = _rstwhen st /\
            _when s1 = _rstwhen s1 /\
            (_nexteos s1 = _nexteos st \/
             _nexteos s1 = next_eos st x (sample_date x))).
  { intros s1 ->. unfold session_rollover.
    destruct (_ <? _); cbn; auto. }
  set (s1 := session_rollover _ _ _ _) in *.
  destruct (H1 s1 eq_refl) as (Htz1 & Hr1 & Hw1 & Hn1). clear H1.
  destruct (date_rollover_rolled p s1 (sample_date x))
    as (ret & s2 & Heq & Hroll); rewrite Heq in H.
  destruct Hroll as (Hr2 & Htz2 & Hn2 & _ & _ & Ht & Hf).
  destruct ret.
  2:{ injection H as <- _. destruct (Hf eq_refl) as (_ & _ & _ & Hw2).
      repeat split; try congruence; rewrite Hn2; exact Hn1. }
  destruct (Ht eq_refl) as (Hw2 & _). clear Ht Hf.
  unfold target_met in H.
  destruct (resolve p s2 (sample_date x)) as [[s3 dwhen] dtwhen] eqn:Hres.
  apply resolve_frame in Hres
    as ((_ & _ & _ & _ & _ & _ & Htz3 & Hr3) & _ & Hn3 & _ & Hw3 & _).
  destruct (x <? dtwhen).
  { injection H as <- _.
    repeat split; try congruence; rewrite Hn3, Hn2; exact Hn1. }
  pose proof (fire_frame _ _ _ _ _ _ _ _ H)
    as ((_ & _ & _ & _ & _ & _ & Htz4 & Hr4) & _).
  apply fire_timer in H as (Hw4 & Hn4).
  assert (Hne : next_eos s3 x (sample_date x)
                = next_eos st x (sample_date x))
    by (unfold next_eos; rewrite Htz3, Htz2, Htz1; reflexivity).
  split; [congruence|]. split; [congruence|]. split.
  - destruct Hw4 as [E|E]; rewrite E; congruence.
  - rewrite Hne in Hn4. destruct Hn4 as [->| ->]; [|auto].
    rewrite Hn3, Hn2. exact Hn1.
Qed.

Lemma run_timer p : forall ts st st' bs,
  run p st ts = Some (st', bs) ->
  _when st = _rstwhen st ->
  is_plain (_tzdata st) ->
  _tzdata st' = _tzdata st /\ _rstwhen st' = _rstwhen st /\
  _when st' = _rstwhen st' /\
  (_nexteos st' = _nexteos st \/
   exists x, In x ts /\ _nexteos st' = combine (sample_date x) TIME_MAX).
Proof.
  induction ts as [|t ts IH]; intros st st' bs H Hw Hp; cbn [run] in H.
  - injection H as <- _. auto.
  - destruct (check p st t) as [[s1 b]|] eqn:Hc; [|discriminate].
    destruct (run p s1 ts) as [[s2 bs']|] eqn:Hr; [|discriminate].
    injection H as <- _.
    destruct (check_timer _ _ _ _ _ Hc Hw) as (Htz1 & Hr1 & Hw1 & Hn1).
    destruct (IH _ _ _ Hr Hw1) as (Htz2 & Hr2 & Hw2 & Hn2);
      [now rewrite Htz1|].
    repeat split; try congruence.
    destruct Hn2 as [E|(y & Hy & E)].
    + rewrite E. destruct Hn1 as [E1|E1]; [now left|right].
      exists t. split; [now left|]. rewrite E1. unfold next_eos.
      destruct (_tzdata st); [reflexivity|reflexivity|destruct Hp].
    + right. exists y. split; [now right|assumption].
Qed.

(** * Further properties of the timer *)

(** ** The binary searches on an ascending sequence *)

Lemma ascending_skipn a n : ascending a -> ascending (skipn n a).
Proof.
  intros Ha i j Hij. rewrite length_skipn in Hij.
  rewrite !nth_skipn. apply Ha. lia.
Qed.

Lemma bisect_left_loop_spec a x fuel : forall lo hi,
  ascending a ->
  (lo <= hi <= length a)%nat -> (hi - lo <= fuel)%nat ->
  (forall i, (i < lo)%nat -> nth i a 0 < x) ->
  (forall i, (hi <= i < length a)%nat -> x <= nth i a 0) ->
  let r := bisect_left_loop fuel a x lo hi in
  (forall i, (i < r)%nat -> nth i a 0 < x) /\
  (forall i, (r <= i < length a)%nat -> x <= nth i a 0).
Proof.
  induction fuel as [|fuel IH]; intros lo hi Ha Hb Hf Hlo Hhi;
    cbn [bisect_left_loop].
  - assert (lo = hi) by lia. subst. split; assumption.
  - destruct (Nat.ltb_spec lo hi) as [Hlt|Hge].
    2:{ assert (lo = hi) by lia. subst. split; assumption. }
    pose proof (mid_bounds lo hi Hlt) as Hm.
    set (mid := ((lo + hi) / 2)%nat) in *.
    destruct (Z.ltb_spec (nth mid a 0) x) as [Hx|Hx].
    + apply IH; try assumption; try lia.
      intros i Hi. specialize (Ha i mid ltac:(lia)). lia.
    + apply IH; try assumption; try lia.
      intros i Hi. specialize (Ha mid i ltac:(lia)). lia.
Qed.

Lemma bisect_right_loop_spec a x fuel : forall lo hi,
  ascending a ->
  (lo <= hi <= length a)%nat -> (hi - lo <= fuel)%nat ->
  (forall i, (i < lo)%nat -> nth i a 0 <= x) ->
  (forall i, (hi <= i < length a)%nat -> x < nth i a 0) ->
  let r := bisect_right_loop fuel a x lo hi in
  (forall i, (i < r)%nat -> nth i a 0 <= x) /\
  (forall i, (r <= i < length a)%nat -> x < nth i a 0).
Proof.
  induction fuel as [|fuel IH]; intros lo hi Ha Hb Hf Hlo Hhi;
    cbn [bisect_right_loop].
  - assert (lo = hi) by lia. subst. split; assumption.
  - destruct (Nat.ltb_spec lo hi) as [Hlt|Hge].
    2:{ assert (lo = hi) by lia. subst. split; assumption. }
    pose proof (mid_bounds lo hi Hlt) as Hm.
    set (mid := ((lo + hi) / 2)%nat) in *.
    destruct (Z.ltb_spec x (nth mid a 0)) as [Hx|Hx].
    + apply IH; try assumption; try lia.
      intros i Hi. specialize (Ha mid i ltac:(lia)). lia.
    + apply IH; try assumption; try lia.
      intros i Hi. specialize (Ha i mid ltac:(lia)). lia.
Qed.

(** On an ascending sequence [bisect_left] is the partition point: the
    entries before it are smaller than [x], the others are not. *)
Lemma bisect_left_spec a x :
  ascending a ->
  (forall i, (i < bisect_left a x 0)%nat -> nth i a 0 < x) /\
  (forall i, (bisect_left a x 0 <= i < length a)%nat -> x <= nth i a 0).
Proof.
  intros Ha. unfold bisect_left.
  apply bisect_left_loop_spec; try assumption; try lia.
Qed.

Lemma bisect_right_spec a x lo :
  ascending a -> (lo <= length a)%nat ->
  (forall i, (i < lo)%nat -> nth i a 0 <= x) ->
  (forall i, (i < bisect_right a x lo)%nat -> nth i a 0 <= x) /\
  (forall i, (bisect_right a x lo <= i < length a)%nat -> x < nth i a 0).
Proof.
  intros Ha Hlo Hbefore. unfold bisect_right.
  apply bisect_right_loop_spec; try assumption; try lia.
Qed.

Lemma in_skipn_nth (a : list Z) n e :
  In e (skipn n a) -> exists i, (n <= i < length a)%nat /\ nth i a 0 = e.
Proof.
  intros H. apply (In_nth _ _ 0) in H as (k & Hk & E).
  rewrite length_skipn in Hk. rewrite nth_skipn in E.
  exists (n + k)%nat. split; [lia|assumption].
Qed.

(** ** The masks of the day filters *)

Lemma suffix_of_refl l : suffix_of l l.
Proof. now exists 0%nat. Qed.

Lemma suffix_of_skipn m l n : suffix_of m l -> suffix_of (skipn n m) l.
Proof. intros (k & ->). exists (n + k)%nat. apply skipn_skipn. Qed.

Lemma suffix_of_nil l : suffix_of [] l.
Proof. exists (length l). symmetry. apply skipn_all. Qed.

Lemma ascending_suffix m l : ascending l -> suffix_of m l -> ascending m.
Proof. intros Hl (n & ->). now apply ascending_skipn. Qed.

(** What [_check_mask] leaves is popped from the front of the old mask, or
    of the configured filter when the period changed. *)
Lemma _check_mask_suffix days carry cur mask key dday ret cur' mask' :
  _check_mask days carry cur mask key dday = Some (ret, (cur', mask')) ->
  suffix_of mask' (if negb (key =? cur) then days else mask).
Proof.
  rewrite _check_mask_eq. intros H. injection H as _ _ <-.
  apply suffix_of_skipn, suffix_of_refl.
Qed.

Lemma _check_mask_no_past days carry cur mask key dday ret cur' mask' :
  ascending days -> ascending mask ->
  _check_mask days carry cur mask key dday = Some (ret, (cur', mask')) ->
  forall e, In e mask' -> dday <= e.
Proof.
  intros Hd Hm. rewrite _check_mask_eq. intros H. injection H as _ _ <-.
  intros e He.
  set (mask1 := if negb (key =? cur) then days else mask) in *.
  assert (H1 : ascending mask1) by (subst mask1; destruct (negb _); assumption).
  apply in_skipn_nth in He as (i & Hi & <-).
  apply (proj2 (bisect_left_spec mask1 dday H1)). lia.
Qed.

Lemma _check_month_masks p st ddate ret st' :
  _check_month p st ddate = Some (ret, st') ->
  _weekmask st' = _weekmask st /\
  (suffix_of (_monthmask st) (p_monthdays p) ->
   suffix_of (_monthmask st') (p_monthdays p)).
Proof.
  unfold _check_month. intros H.
  destruct (p_monthdays p) as [|x l] eqn:E.
  - injection H as _ <-. auto.
  - rewrite <- E in *.
    destruct (_check_mask _ _ _ _ _ _) as [[r [m mask]]|] eqn:Hm;
      [|discriminate].
    injection H as _ <-. split; [reflexivity|]. intros Hs. cbn.
    apply _check_mask_suffix in Hm.
    destruct (negb _); [assumption|].
    destruct Hm as (n & ->). now apply suffix_of_skipn.
Qed.

Lemma _check_week_masks p st ddate ret st' :
  _check_week p st ddate = Some (ret, st') ->
  _monthmask st' = _monthmask st /\
  (suffix_of (_weekmask st) (p_weekdays p) ->
   suffix_of (_weekmask st') (p_weekdays p)).
Proof.
  unfold _check_week. intros H.
  destruct (p_weekdays p) as [|x l] eqn:E.
  - injection H as _ <-. auto.
  - rewrite <- E in *.
    destruct (isocalendar ddate) as [[y w] k].
    destruct (_check_mask _ _ _ _ _ _) as [[r [m mask]]|] eqn:Hm;
      [|discriminate].
    injection H as _ <-. split; [reflexivity|]. intros Hs. cbn.
    apply _check_mask_suffix in Hm.
    destruct (negb _); [assumption|].
    destruct Hm as (n & ->). now apply suffix_of_skipn.
Qed.

Lemma date_rollover_masks p st ddate ret st1 :
  date_rollover p st ddate = Some (ret, st1) ->
  masks_from_filters p st -> masks_from_filters p st1.
Proof.
  unfold date_rollover, masks_from_filters. intros H (Hm & Hw).
  destruct (_curdate st <? ddate); [|injection H as _ <-; auto].
  destruct (_check_month p _ ddate) as [[r1 s1]|] eqn:H1; [|discriminate].
  apply _check_month_masks in H1 as (Ew1 & Hm1). cbn in Ew1, Hm1.
  specialize (Hm1 Hm).
  assert (H2 : exists r2 s2,
            (if r1 then _check_week p (record_call s1 (EvWeek ddate)) ddate
             else Some (r1, s1)) = Some (r2, s2) /\
            suffix_of (_monthmask s2) (p_monthdays p) /\
            suffix_of (_weekmask s2) (p_weekdays p)).
  { destruct r1.
    - destruct (_check_week p _ ddate) as [[r2 s2]|] eqn:H2;
        [|discriminate].
      exists r2, s2. split; [reflexivity|].
      apply _check_week_masks in H2 as (Em2 & Hw2). cbn in Em2, Hw2.
      rewrite Em2. split; [assumption|]. apply Hw2. now rewrite Ew1.
    - exists false, s1. split; [reflexivity|].
      split; [assumption|]. now rewrite Ew1. }
  destruct H2 as (r2 & s2 & E2 & Hm2 & Hw2). rewrite E2 in H.
  destruct (p_allow p) as [f|]; destruct r2; cbn in H;
    try destruct (f ddate); injection H as _ <-; cbn; auto.
Qed.

Lemma check_masks p st dt st' b :
  check p st dt = Some (st', b) ->
  masks_from_filters p st -> masks_from_filters p st'.
Proof.
  intros H Hm. unfold check in H. fold (sample_date dt) in H.
  destruct (eq_lastcall _ _); [injection H as <- _; assumption|].
  pose proof (session_rollover_frame st dt (num2date dt None)
                (sample_date dt)) as (_ & _ & E1 & _ & E2 & _).
  set (s1 := session_rollover _ _ _ _) in *.
  assert (H1 : masks_from_filters p s1)
    by (unfold masks_from_filters; rewrite E1, E2; exact Hm).
  destruct (date_rollover p s1 (sample_date dt)) as [[ret s2]|] eqn:Hr;
    [|discriminate].
  apply date_rollover_masks in Hr; [|assumption].
  destruct ret; [|injection H as <- _; assumption].
  apply target_met_frame in H as (_ & _ & E3 & _ & E4 & _).
  unfold masks_from_filters. rewrite E3, E4. exact Hr.
Qed.

Lemma run_masks p : forall ts st st' bs,
  run p st ts = Some (st', bs) ->
  masks_from_filters p st -> masks_from_filters p st'.
Proof.
  induction ts as [|t ts IH]; intros st st' bs H Hm; cbn [run] in H.
  - injection H as <- _. assumption.
  - destruct (check p st t) as [[s1 b]|] eqn:Hc; [|discriminate].
    destruct (run p s1 ts) as [[s2 bs']|] eqn:Hr; [|discriminate].
    injection H as <- _.
    eapply IH; [eassumption|]. eapply check_masks; eassumption.
Qed.

(** X1. After [start], whatever the samples, the month mask and the week
    mask are what is left of the configured filters after entries were
    popped from the front: nothing is ever inserted or reordered. With
    ascending filters the masks are ascending. *)
Theorem masks_are_suffixes_of_filters p data ts st :
  reached p data ts st ->
  masks_from_filters p st /\
  (ascending (p_monthdays p) -> ascending (_monthmask st)) /\
  (ascending (p_weekdays p) -> ascending (_weekmask st)).
Proof.
  intros (st0 & bs & Hs & Hr).
  destruct (start_started _ _ _ Hs) as (t0 & tzd & ->).
  assert (Hm : masks_from_filters p st).
  { eapply run_masks; [eassumption|].
    split; cbn; apply suffix_of_nil. }
  split; [exact Hm|].
  destruct Hm as (Hm & Hw).
  split; intros Ha; eapply ascending_suffix; eassumption.
Qed.

Lemma ascending_5_15_25 : ascending [5; 15; 25].
Proof.
  intros i j Hij. simpl length in Hij.
  destruct i as [|[|[|i]]]; destruct j as [|[|[|j]]]; simpl nth; lia.
Qed.

(** The theorem for the month days 5, 15 and 25 after the samples of
    2024-01-03 and 2024-01-10, both at 09:00: the first leaves the mask as
    it is, the second leaves 25. *)
Lemma masks_are_suffixes_of_filters_witness :
  exists st bs,
    run (monthly_5_15_25 true) (started (hms 9 0 0 0) TzNone)
        [combine 738888 (hms 9 0 0 0); combine 738895 (hms 9 0 0 0)]
      = Some (st, bs) /\
    _monthmask st = [25] /\
    masks_from_filters (monthly_5_15_25 true) st /\
    ascending (_monthmask st).
Proof.
  assert (H : exists st bs,
             run (monthly_5_15_25 true) (started (hms 9 0 0 0) TzNone)
                 [combine 738888 (hms 9 0 0 0); combine 738895 (hms 9 0 0 0)]
               = Some (st, bs) /\
             _monthmask st = [25])
    by (eexists _, _; vm_compute; split; reflexivity).
  destruct H as (st & bs & H & Hm).
  destruct (masks_are_suffixes_of_filters (monthly_5_15_25 true) no_feed
              [combine 738888 (hms 9 0 0 0); combine 738895 (hms 9 0 0 0)] st)
    as (Hs & Ha & _).
  - exists (started (hms 9 0 0 0) TzNone), bs. split; [reflexivity|exact H].
  - exists st, bs. split; [exact H|]. split; [exact Hm|].
    split; [exact Hs|]. apply Ha. exact ascending_5_15_25.
Defined.

Lemma _check_month_unfold p st ddate :
  p_monthdays p <> [] ->
  _check_month p st ddate =
    match _check_mask (p_monthdays p) (p_monthcarry p) (_curmonth st)
            (_monthmask st) (month_of ddate) (day_of ddate) with
    | None => None
    | Some (ret, (m, mask)) => Some (ret, set_month st m mask)
    end.
Proof.
  intros Hne. unfold _check_month.
  destruct (p_monthdays p) as [|x l]; [congruence|reflexivity].
Qed.

Lemma _check_week_unfold p st ddate :
  p_weekdays p <> [] ->
  _check_week p st ddate =
    match _check_mask (p_weekdays p) (p_weekcarry p) (_curweek st)
            (_weekmask st) (snd (fst (isocalendar ddate)))
            (snd (isocalendar ddate)) with
    | None => None
    | Some (ret, (w, mask)) => Some (ret, set_week st w mask)
    end.
Proof.
  intros Hne. unfold _check_week.
  destruct (p_weekdays p) as [|x l]; [congruence|].
  destruct (isocalendar ddate) as [[y w] k]. reflexivity.
Qed.

(** X2. With ascending filters and masks, the mask that [_check_month] (and
    likewise [_check_week]) leaves holds no day number before the one of the
    date: the days that are past are consumed. *)
Theorem checked_mask_has_no_past_day p st ddate ret st' :
  (p_monthdays p <> [] -> ascending (p_monthdays p) ->
   ascending (_monthmask st) ->
   _check_month p st ddate = Some (ret, st') ->
   forall e, In e (_monthmask st') -> day_of ddate <= e) /\
  (p_weekdays p <> [] -> ascending (p_weekdays p) ->
   ascending (_weekmask st) ->
   _check_week p st ddate = Some (ret, st') ->
   forall e, In e (_weekmask st') -> snd (isocalendar ddate) <= e).
Proof.
  split.
  - intros Hne Hd Hm H. rewrite _check_month_unfold in H by assumption.
    destruct (_check_mask _ _ _ _ _ _) as [[r [m mask]]|] eqn:Hc;
      [|discriminate].
    injection H as _ <-. cbn.
    exact (_check_mask_no_past _ _ _ _ _ _ _ _ _ Hd Hm Hc).
  - intros Hne Hd Hm H. rewrite _check_week_unfold in H by assumption.
    destruct (_check_mask _ _ _ _ _ _) as [[r [m mask]]|] eqn:Hc;
      [|discriminate].
    injection H as _ <-. cbn.
    exact (_check_mask_no_past _ _ _ _ _ _ _ _ _ Hd Hm Hc).
Qed.

(** The theorem for the filter 5, 15, 25 on 2024-01-10 of a timer just
    started: what is left of the mask is not before day 10. *)
Lemma checked_mask_has_no_past_day_witness :
  exists st',
    _check_month (monthly_5_15_25 true) (started (hms 9 0 0 0) TzNone) 738895
      = Some (true, st') /\
    forall e, In e (_monthmask st') -> day_of 738895 <= e.
Proof.
  assert (H : exists st',
             _check_month (monthly_5_15_25 true)
               (started (hms 9 0 0 0) TzNone) 738895 = Some (true, st'))
    by (eexists; vm_compute; reflexivity).
  destruct H as (st' & H). exists st'. split; [exact H|].
  refine (proj1 (checked_mask_has_no_past_day (monthly_5_15_25 true)
                   (started (hms 9 0 0 0) TzNone) 738895 true st')
            _ _ _ H).
  - discriminate.
  - exact ascending_5_15_25.
  - intros i j Hij. cbn in Hij. lia.
Defined.

(** X3. Once the mask of the current period is empty, every later day of
    that period is rejected, with or without carry, and the mask stays
    empty. *)
Theorem exhausted_mask_rejects p st ddate :
  (p_monthdays p <> [] -> month_of ddate = _curmonth st ->
   _monthmask st = [] ->
   _check_month p st ddate = Some (false, st)) /\
  (p_weekdays p <> [] -> snd (fst (isocalendar ddate)) = _curweek st ->
   _weekmask st = [] ->
   _check_week p st ddate = Some (false, st)).
Proof.
  split.
  - intros Hne Hk Hm. rewrite _check_month_unfold by assumption.
    rewrite Hm, Hk. unfold _check_mask. rewrite Z.eqb_refl. cbn.
    rewrite andb_false_r. cbn.
    rewrite <- Hm at 1. rewrite set_month_id. reflexivity.
  - intros Hne Hk Hm. rewrite _check_week_unfold by assumption.
    rewrite Hm, Hk. unfold _check_mask. rewrite Z.eqb_refl. cbn.
    rewrite andb_false_r. cbn.
    rewrite <- Hm at 1. rewrite set_week_id. reflexivity.
Qed.

(** The theorem for the filter 5, 15, 25 with carry: on 2024-01-26 the three
    entries are past and consumed; 2024-01-27 is rejected. *)
Lemma exhausted_mask_rejects_witness :
  exists st1,
    _check_month (monthly_5_15_25 true) (started (hms 9 0 0 0) TzNone) 738911
      = Some (true, st1) /\
    _check_month (monthly_5_15_25 true) st1 738912 = Some (false, st1).
Proof.
  assert (H : exists st1,
             _check_month (monthly_5_15_25 true)
               (started (hms 9 0 0 0) TzNone) 738911 = Some (true, st1) /\
             month_of 738912 = _curmonth st1 /\ _monthmask st1 = [])
    by (eexists; vm_compute; repeat split).
  destruct H as (st1 & H & Hk & Hm). exists st1. split; [exact H|].
  refine (proj1 (exhausted_mask_rejects (monthly_5_15_25 true) st1 738912)
            _ Hk Hm).
  discriminate.
Defined.

Lemma _check_mask_exact days carry cur mask key dday rest :
  let mask1 := if negb (key =? cur) then days else mask in
  ascending mask1 -> mask1 = dday :: rest ->
  _check_mask days carry cur mask key dday = Some (true, (key, rest)).
Proof.
  intros mask1 Ha E. rewrite _check_mask_eq. fold mask1.
  destruct (bisect_left_spec mask1 dday Ha) as (Hl & _).
  set (dc := bisect_left mask1 dday 0) in *.
  assert (Hdc : dc = 0%nat).
  { destruct dc as [|n]; [reflexivity|].
    specialize (Hl 0%nat ltac:(lia)). rewrite E in Hl. cbn in Hl. lia. }
  rewrite Hdc in *.
  destruct (bisect_right_spec mask1 dday 0 Ha ltac:(lia)) as (_ & Hr);
    [intros i Hi; lia|].
  assert (Hpos : (0 <? bisect_right mask1 dday 0)%nat = true).
  { apply Nat.ltb_lt.
    destruct (bisect_right mask1 dday 0) as [|n] eqn:Er; [|lia].
    specialize (Hr 0%nat). rewrite E in Hr. cbn in Hr. lia. }
  assert (Hlen : (0 <? length mask1)%nat = true)
    by (rewrite E; reflexivity).
  rewrite Hlen, Hpos. cbn [andb b2n Nat.add]. rewrite !orb_true_r.
  rewrite E. cbn [skipn].
  destruct (Z.eqb_spec key cur) as [->|]; reflexivity.
Qed.

Lemma _check_mask_before days carry cur mask key dday e rest :
  let mask1 := if negb (key =? cur) then days else mask in
  ascending mask1 -> mask1 = e :: rest -> dday < e ->
  _check_mask days carry cur mask key dday =
    Some ((if negb (key =? cur) then carry && nonempty mask else false),
          (key, mask1)).
Proof.
  intros mask1 Ha E Hlt. rewrite _check_mask_eq. fold mask1.
  destruct (bisect_left_spec mask1 dday Ha) as (Hl & _).
  set (dc := bisect_left mask1 dday 0) in *.
  assert (Hdc : dc = 0%nat).
  { destruct dc as [|n]; [reflexivity|].
    specialize (Hl 0%nat ltac:(lia)). rewrite E in Hl. cbn in Hl. lia. }
  rewrite Hdc in *.
  destruct (bisect_right_spec mask1 dday 0 Ha ltac:(lia)) as (Hr & _);
    [intros i Hi; lia|].
  assert (Hz : (0 <? bisect_right mask1 dday 0)%nat = false).
  { apply Nat.ltb_ge.
    destruct (bisect_right mask1 dday 0) as [|n] eqn:Er; [lia|].
    specialize (Hr 0%nat ltac:(lia)). rewrite E in Hr. cbn in Hr. lia. }
  rewrite Hz. rewrite andb_false_r. cbn [b2n Nat.add skipn].
  rewrite andb_false_r, !orb_false_r.
  destruct (Z.eqb_spec key cur) as [->|]; reflexivity.
Qed.

(** X4. With an ascending mask (the filter itself when the period changes),
    on the day that is the first entry left, [_check_month] and
    [_check_week] let the date through and consume exactly that entry. *)
Theorem exact_day_consumes_its_entry p st ddate rest :
  (p_monthdays p <> [] ->
   let mask1 := if negb (month_of ddate =? _curmonth st)
                then p_monthdays p else _monthmask st in
   ascending mask1 -> mask1 = day_of ddate :: rest ->
   _check_month p st ddate = Some (true, set_month st (month_of ddate) rest))
  /\
  (p_weekdays p <> [] ->
   let mask1 := if negb (snd (fst (isocalendar ddate)) =? _curweek st)
                then p_weekdays p else _weekmask st in
   ascending mask1 -> mask1 = snd (isocalendar ddate) :: rest ->
   _check_week p st ddate =
     Some (true, set_week st (snd (fst (isocalendar ddate))) rest)).
Proof.
  split.
  - intros Hne mask1 Ha E. rewrite _check_month_unfold by assumption.
    rewrite (_check_mask_exact _ _ _ _ _ _ rest Ha E). reflexivity.
  - intros Hne mask1 Ha E. rewrite _check_week_unfold by assumption.
    rewrite (_check_mask_exact _ _ _ _ _ _ rest Ha E). reflexivity.
Qed.

(** The theorem for the filter 5, 15, 25 on 2024-01-05 of a timer just
    started: the date passes and 15, 25 are left. *)
Lemma exact_day_consumes_its_entry_witness :
  _check_month (monthly_5_15_25 false) (started (hms 9 0 0 0) TzNone) 738890
    = Some (true, set_month (started (hms 9 0 0 0) TzNone) 1 [15; 25]).
Proof.
  refine (proj1 (exact_day_consumes_its_entry (monthly_5_15_25 false)
                   (started (hms 9 0 0 0) TzNone) 738890 [15; 25]) _ _ _).
  - discriminate.
  - exact ascending_5_15_25.
  - reflexivity.
Defined.

(** X5. With an ascending mask, on a day before the first entry left,
    [_check_month] and [_check_week] consume nothing, and the date is let
    through only by the carry of a period that ended with entries left. *)
Theorem day_before_entries_consumes_nothing p st ddate e rest :
  (p_monthdays p <> [] ->
   let mask1 := if negb (month_of ddate =? _curmonth st)
                then p_monthdays p else _monthmask st in
   ascending mask1 -> mask1 = e :: rest -> day_of ddate < e ->
   _check_month p st ddate =
     Some ((if negb (month_of ddate =? _curmonth st)
            then p_monthcarry p && nonempty (_monthmask st) else false),
           set_month st (month_of ddate) mask1))
  /\
  (p_weekdays p <> [] ->
   let mask1 := if negb (snd (fst (isocalendar ddate)) =? _curweek st)
                then p_weekdays p else _weekmask st in
   ascending mask1 -> mask1 = e :: rest -> snd (isocalendar ddate) < e ->
   _check_week p st ddate =
     Some ((if negb (snd (fst (isocalendar ddate)) =? _curweek st)
            then p_weekcarry p && nonempty (_weekmask st) else false),
           set_week st (snd (fst (isocalendar ddate))) mask1)).
Proof.
  split.
  - intros Hne mask1 Ha E Hlt. rewrite _check_month_unfold by assumption.
    rewrite (_check_mask_before _ _ _ _ _ _ e rest Ha E Hlt). reflexivity.
  - intros Hne mask1 Ha E Hlt. rewrite _check_week_unfold by assumption.
    rewrite (_check_mask_before _ _ _ _ _ _ e rest Ha E Hlt). reflexivity.
Qed.

(** The theorem for the filter 5, 15, 25 on 2024-01-03 of a timer just
    started: the date is rejected and the mask is the whole filter. *)
Lemma day_before_entries_consumes_nothing_witness :
  _check_month (monthly_5_15_25 true) (started (hms 9 0 0 0) TzNone) 738888
    = Some (false, set_month (started (hms 9 0 0 0) TzNone) 1 [5; 15; 25]).
Proof.
  refine (proj1 (day_before_entries_consumes_nothing (monthly_5_15_25 true)
                   (started (hms 9 0 0 0) TzNone) 738888 5 [15; 25])
            _ _ _ _).
  - discriminate.
  - exact ascending_5_15_25.
  - reflexivity.
  - reflexivity.
Defined.

(** ** The state of the timer over a run *)

Lemma check_curdate_seen p st dt st' b :
  check p st dt = Some (st', b) -> lastcall_seen st ->
  _curdate st <= _curdate st' /\ sample_date dt <= _curdate st'.
Proof.
  intros H Hseen. unfold check in H. fold (sample_date dt) in H.
  unfold eq_lastcall in H.
  destruct (_lastcall st) as [l|] eqn:Hl.
  - destruct (Z.eqb_spec l (sample_date dt)) as [->|Hne].
    + injection H as <- _. split; [lia|]. now apply Hseen.
    + assert (Hc : check p st dt = Some (st', b)).
      { unfold check. fold (sample_date dt). unfold eq_lastcall.
        rewrite Hl. destruct (Z.eqb_spec l (sample_date dt)); [congruence|].
        exact H. }
      destruct (check_curdate _ _ _ _ _ Hc) as [->|E].
      * clear Hc.
        pose proof (session_rollover_frame st dt (num2date dt None)
                      (sample_date dt)) as (Hs & _).
        set (s1 := session_rollover _ _ _ _) in *.
        destruct (date_rollover_rolled p s1 (sample_date dt))
          as (ret & s2 & Heq & Hroll). rewrite Heq in H.
        destruct Hroll as (_ & _ & _ & _ & Hcur & _).
        destruct ret.
        -- apply target_met_frame in H as (E & _). lia.
        -- injection H as E _. rewrite E in Hcur. lia.
      * lia.
  - assert (Hc : check p st dt = Some (st', b)).
    { unfold check. fold (sample_date dt). unfold eq_lastcall.
      rewrite Hl. exact H. }
    destruct (check_curdate _ _ _ _ _ Hc) as [->|E]; [|lia].
    clear Hc.
    pose proof (session_rollover_frame st dt (num2date dt None)
                  (sample_date dt)) as (Hs & _).
    set (s1 := session_rollover _ _ _ _) in *.
    destruct (date_rollover_rolled p s1 (sample_date dt))
      as (ret & s2 & Heq & Hroll). rewrite Heq in H.
    destruct Hroll as (_ & _ & _ & _ & Hcur & _).
    destruct ret.
    + apply target_met_frame in H as (E & _). lia.
    + injection H as E _. rewrite E in Hcur. lia.
Qed.

Lemma run_curdate_seen p : forall ts st st' bs,
  run p st ts = Some (st', bs) -> lastcall_seen st ->
  _curdate st <= _curdate st' /\
  forall t, In t ts -> sample_date t <= _curdate st'.
Proof.
  induction ts as [|t ts IH]; intros st st' bs H Hseen; cbn [run] in H.
  - injection H as <- _. split; [lia|]. intros t [].
  - destruct (check p st t) as [[s1 b]|] eqn:Hc; [|discriminate].
    destruct (run p s1 ts) as [[s2 bs']|] eqn:Hr; [|discriminate].
    injection H as <- _.
    destruct (check_curdate_seen _ _ _ _ _ Hc Hseen) as (H1 & H2).
    destruct (IH _ _ _ Hr) as (H3 & H4);
      [eapply check_lastcall_seen; eassumption|].
    split; [lia|]. intros t' [<-|Hin]; [lia|now apply H4].
Qed.

(** X6. After [start], the tracked date [_curdate] never goes back over
    further calls, whatever the order of the samples, and it is never before
    the date of a sample the timer was called with. *)
Theorem tracked_date_never_goes_back p data ts st ts' st' bs :
  reached p data ts st ->
  run p st ts' = Some (st', bs) ->
  _curdate st <= _curdate st' /\
  (forall t, In t (ts ++ ts') -> sample_date t <= _curdate st') /\
  date_min <= _curdate st.
Proof.
  intros Hreach Hrun.
  pose proof (reached_lastcall_seen _ _ _ _ Hreach) as Hseen.
  destruct (run_curdate_seen _ _ _ _ _ Hrun Hseen) as (H1 & H2).
  destruct Hreach as (st0 & bs0 & Hs & Hr).
  destruct (start_started _ _ _ Hs) as (t0 & tzd & ->).
  destruct (run_curdate_seen _ _ _ _ _ Hr) as (H3 & H4);
    [intros a Ha; discriminate|].
  cbn in H3. repeat split; try assumption.
  intros t Hin. apply in_app_or in Hin as [Hin|Hin].
  - specialize (H4 t Hin). lia.
  - now apply H2.
Qed.

(** The theorem on samples that go back in time: 2024-01-11 and then
    2024-01-10. *)
Lemma tracked_date_never_goes_back_witness :
  exists st',
    run daily_0900 (started (hms 9 0 0 0) TzNone)
        [combine 738896 (hms 8 0 0 0); combine 738895 (hms 8 0 0 0)]
      = Some (st', [false; false]) /\
    forall t, In t [combine 738896 (hms 8 0 0 0);
                    combine 738895 (hms 8 0 0 0)] ->
      sample_date t <= _curdate st'.
Proof.
  assert (H : exists st',
             run daily_0900 (started (hms 9 0 0 0) TzNone)
                 [combine 738896 (hms 8 0 0 0); combine 738895 (hms 8 0 0 0)]
             = Some (st', [false; false]))
    by (eexists; vm_compute; reflexivity).
  destruct H as (st' & H). exists st'. split; [exact H|].
  refine (proj1 (proj2 (tracked_date_never_goes_back daily_0900 no_feed []
                          (started (hms 9 0 0 0) TzNone) _ st' _ _ H))).
  eexists _, _. split; reflexivity.
Defined.

Lemma check_false_lastwhen p st dt st' :
  check p st dt = Some (st', false) -> lastwhen st' = lastwhen st.
Proof.
  intros H. unfold check in H. fold (sample_date dt) in H.
  destruct (eq_lastcall _ _); [now injection H as <-|].
  assert (H1 : forall s1,
            s1 = session_rollover st dt (num2date dt None) (sample_date dt) ->
            lastwhen s1 = lastwhen st).
  { intros s1 ->. unfold session_rollover. destruct (_ <? _); reflexivity. }
  set (s1 := session_rollover _ _ _ _) in *.
  specialize (H1 s1 eq_refl).
  destruct (date_rollover_rolled p s1 (sample_date dt))
    as (ret & s2 & Heq & Hroll). rewrite Heq in H.
  destruct Hroll as (_ & _ & _ & Hl & _).
  destruct ret; [|injection H as <-; congruence].
  unfold target_met in H.
  destruct (resolve p s2 (sample_date dt)) as [[s3 dwhen] dtwhen] eqn:Hres.
  apply resolve_frame in Hres as (_ & _ & _ & Hl3 & _).
  destruct (dt <? dtwhen); [injection H as <-; congruence|].
  apply fire_frame in H as (_ & Hb & _). discriminate.
Qed.

(** X7. The recorded last-fired instant [lastwhen] changes only on a call
    that returns true: over a run in which every call returns false it is
    what it was. *)
Theorem lastwhen_changes_only_on_fire p : forall ts st st' bs,
  run p st ts = Some (st', bs) ->
  (forall b, In b bs -> b = false) ->
  lastwhen st' = lastwhen st.
Proof.
  induction ts as [|t ts IH]; intros st st' bs H Hbs; cbn [run] in H.
  - now injection H as <- _.
  - destruct (check p st t) as [[s1 b]|] eqn:Hc; [|discriminate].
    destruct (run p s1 ts) as [[s2 bs']|] eqn:Hr; [|discriminate].
    injection H as <- <-.
    assert (b = false) by (apply Hbs; now left). subst b.
    rewrite (IH _ _ _ Hr) by (intros b Hb; apply Hbs; now right).
    eapply check_false_lastwhen; eassumption.
Qed.

(** The theorem on a day change before the target time, after a fire the
    day before. *)
Lemma lastwhen_changes_only_on_fire_witness :
  exists st st',
    run daily_0900 (started (hms 9 0 0 0) TzNone)
        [combine 738895 (hms 10 0 0 0)] = Some (st, [true]) /\
    run daily_0900 st [combine 738895 (hms 11 0 0 0);
                       combine 738896 (hms 8 0 0 0)]
      = Some (st', [false; false]) /\
    lastwhen st' = lastwhen st.
Proof.
  assert (H1 : exists st,
             run daily_0900 (started (hms 9 0 0 0) TzNone)
                 [combine 738895 (hms 10 0 0 0)] = Some (st, [true]))
    by (eexists; vm_compute; reflexivity).
  destruct H1 as (st & H1).
  assert (H2 : exists st',
             run daily_0900 st [combine 738895 (hms 11 0 0 0);
                                combine 738896 (hms 8 0 0 0)]
             = Some (st', [false; false])).
  { vm_compute in H1. injection H1 as <-. eexists. vm_compute.
    reflexivity. }
  destruct H2 as (st' & H2). exists st, st'.
  split; [exact H1|]. split; [exact H2|].
  apply (lastwhen_changes_only_on_fire daily_0900 _ st st' _ H2).
  intros b [<-|[<-|[]]]; reflexivity.
Defined.

(** ** [start] *)

(** X11. [start] fails exactly when the target time is an integer code and
    either the code is neither [SESSION_START] nor [SESSION_END] (so is
    [SESSION_TIME]: [_rstwhen] is never assigned), or [tzdata] is a plain
    timezone, which has no session times to read. *)
Theorem start_fails_exactly_when p data :
  start p data = None <->
  exists n, p_when p = WhenInt n /\
    ((n <> SESSION_START /\ n <> SESSION_END) \/
     exists z, p_tzdata p = TzInfo z).
Proof.
  unfold start. split.
  - intros H. destruct (p_when p) as [t|n]; [discriminate|].
    exists n. split; [reflexivity|].
    destruct (Z.eqb_spec n SESSION_START) as [E1|E1].
    + right. destruct (p_tzdata p) as [|z|f]; try discriminate. eauto.
    + destruct (Z.eqb_spec n SESSION_END) as [E2|E2]; [|now left].
      right. destruct (p_tzdata p) as [|z|f]; try discriminate. eauto.
  - intros (n & -> & [(H1 & H2)|(z & ->)]).
    + destruct (Z.eqb_spec n SESSION_START); [congruence|].
      destruct (Z.eqb_spec n SESSION_END); [congruence|reflexivity].
    + destruct (n =? SESSION_START); [reflexivity|].
      destruct (n =? SESSION_END); reflexivity.
Qed.

(** X12. When [start] succeeds with a session code, the time source is a
    feed: the feed given as [tzdata] if there is one, otherwise the data the
    timer is started with; and the target time of day is the session start or
    the session end of that feed. *)
Theorem start_reads_session_time p data n st :
  p_when p = WhenInt n ->
  start p data = Some st ->
  exists f,
    _tzdata st = TzData f /\
    (p_tzdata p = TzNone -> f = data) /\
    (forall g, p_tzdata p = TzData g -> f = g) /\
    ((n = SESSION_START /\ _rstwhen st = sessionstart f) \/
     (n = SESSION_END /\ _rstwhen st = sessionend f)) /\
    _when st = _rstwhen st.
Proof.
  intros Hw H. unfold start in H. rewrite Hw in H.
  destruct (Z.eqb_spec n SESSION_START) as [E1|E1].
  - destruct (p_tzdata p) as [|z|f] eqn:Etz; try discriminate;
      injection H as <-; eexists; (split; [reflexivity|]);
      repeat split; try congruence; auto.
  - destruct (Z.eqb_spec n SESSION_END) as [E2|E2]; [|discriminate].
    destruct (p_tzdata p) as [|z|f] eqn:Etz; try discriminate;
      injection H as <-; eexists; (split; [reflexivity|]);
      repeat split; try congruence; auto.
Qed.

(** The theorem for a timer at the start of the session, started with the
    overnight feed. *)
Lemma start_reads_session_time_witness :
  exists st f,
    start at_session_start overnight_feed = Some st /\
    _tzdata st = TzData f /\ f = overnight_feed /\
    _when st = _rstwhen st.
Proof.
  assert (H : start at_session_start overnight_feed
              = Some (started (hms 18 0 0 0) (TzData overnight_feed)))
    by reflexivity.
  destruct (start_reads_session_time at_session_start overnight_feed
              SESSION_START _ eq_refl H) as (f & Htz & Hd & _ & _ & Hw).
  exists (started (hms 18 0 0 0) (TzData overnight_feed)), f.
  repeat split; try assumption. now apply Hd.
Defined.

(** ** What is fixed at [start] *)

Lemma run_fields p : forall ts st st' bs,
  run p st ts = Some (st', bs) ->
  _when st = _rstwhen st ->
  _tzdata st' = _tzdata st /\ _rstwhen st' = _rstwhen st /\
  _when st' = _rstwhen st'.
Proof.
  induction ts as [|t ts IH]; intros st st' bs H Hw; cbn [run] in H.
  - injection H as <- _. auto.
  - destruct (check p st t) as [[s1 b]|] eqn:Hc; [|discriminate].
    destruct (run p s1 ts) as [[s2 bs']|] eqn:Hr; [|discriminate].
    injection H as <- _.
    destruct (check_timer _ _ _ _ _ Hc Hw) as (Htz1 & Hr1 & Hw1 & _).
    destruct (IH _ _ _ Hr Hw1) as (Htz2 & Hr2 & Hw2).
    repeat split; congruence.
Qed.

(** X13. Over any run after [start] the time source and the target time of
    day are the ones fixed at [start]: [_when] is never advanced, whatever
    the repeats, and every date is resolved from the same time of day. *)
Theorem time_source_and_target_time_are_fixed p data st0 ts st bs :
  start p data = Some st0 ->
  run p st0 ts = Some (st, bs) ->
  _tzdata st = _tzdata st0 /\ _rstwhen st = _rstwhen st0 /\
  _when st = _rstwhen st0 /\
  (forall w, p_when p = WhenTime w ->
     _when st = w /\ _tzdata st = p_tzdata p).
Proof.
  intros Hs Hr.
  destruct (start_started _ _ _ Hs) as (t0 & tzd & E). subst st0.
  destruct (run_fields p _ _ _ _ Hr eq_refl) as (Htz & Hrst & Hw).
  cbn in Htz, Hrst. cbn [_tzdata _rstwhen started].
  split; [congruence|]. split; [congruence|]. split; [congruence|].
  intros w Hwhen. unfold start in Hs. rewrite Hwhen in Hs.
  assert (E : started w (p_tzdata p) = started t0 tzd) by congruence.
  pose proof (f_equal _rstwhen E) as E1.
  pose proof (f_equal _tzdata E) as E2. cbn in E1, E2.
  split; congruence.
Qed.

(** The theorem for the hourly timer after two fires. *)
Lemma time_source_and_target_time_are_fixed_witness :
  exists st,
    run hourly_0900 (started (hms 9 0 0 0) TzNone)
        [combine 738895 (hms 9 0 0 0); combine 738895 (hms 10 0 0 0)]
      = Some (st, [true; true]) /\
    _when st = hms 9 0 0 0.
Proof.
  assert (H : exists st,
             run hourly_0900 (started (hms 9 0 0 0) TzNone)
                 [combine 738895 (hms 9 0 0 0); combine 738895 (hms 10 0 0 0)]
             = Some (st, [true; true]))
    by (eexists; vm_compute; reflexivity).
  destruct H as (st & H). exists st. split; [exact H|].
  destruct (time_source_and_target_time_are_fixed hourly_0900 no_feed
              (started (hms 9 0 0 0) TzNone) _ st _ eq_refl H)
    as (_ & _ & Hw & _).
  exact Hw.
Defined.

(** X14. Without a feed, the cached end of session of a started timer is
    [datetime.min] (no sample went past it yet) or the end of the calendar
    day of one of the samples. *)
Theorem plain_session_end_is_end_of_sampled_day p data st0 ts st bs :
  start p data = Some st0 ->
  run p st0 ts = Some (st, bs) ->
  is_plain (_tzdata st0) ->
  _nexteos st = datetime_min \/
  exists x, In x ts /\ _nexteos st = combine (sample_date x) TIME_MAX.
Proof.
  intros Hs Hr Hp.
  destruct (start_started _ _ _ Hs) as (t0 & tzd & E). subst st0.
  destruct (run_timer p _ _ _ _ Hr eq_refl Hp) as (_ & _ & _ & Hn).
  exact Hn.
Qed.

(** The theorem after a sample of 2024-01-10. *)
Lemma plain_session_end_is_end_of_sampled_day_witness :
  exists st,
    run daily_0900 (started (hms 9 0 0 0) TzNone)
        [combine 738895 (hms 8 0 0 0)] = Some (st, [false]) /\
    (_nexteos st = datetime_min \/
     exists x, In x [combine 738895 (hms 8 0 0 0)] /\
               _nexteos st = combine (sample_date x) TIME_MAX).
Proof.
  assert (H : exists st,
             run daily_0900 (started (hms 9 0 0 0) TzNone)
                 [combine 738895 (hms 8 0 0 0)] = Some (st, [false]))
    by (eexists; vm_compute; reflexivity).
  destruct H as (st & H). exists st. split; [exact H|].
  apply (plain_session_end_is_end_of_sampled_day daily_0900 no_feed
           (started (hms 9 0 0 0) TzNone) _ st _ eq_refl H).
  exact I.
Defined.

(** * The timer on float timestamps *)

(** ** The phases of a call *)

Lemma h_delocalize_round_trip H st w x :
  h_date2num H w None = Some x ->
  TimerH.delocalize H st x = round_trip H (_tzdata st) w.
Proof.
  intros E. unfold TimerH.delocalize, round_trip. rewrite E. reflexivity.
Qed.

Lemma dt_add_some d delta r :
  dt_add d delta = Some r ->
  r = d + delta /\ datetime_min <= r <= datetime_max.
Proof.
  unfold dt_add. intros H.
  destruct (Z.leb_spec datetime_min (d + delta)); [|discriminate].
  destruct (Z.leb_spec (d + delta) datetime_max); [|discriminate].
  cbn in H. injection H as <-. lia.
Qed.




(** How the loop ends when it ends: at the first [w + k * r] that is past
    the end of the session or past the datetime of the sample. *)
Lemma h_repeat_loop_inv fuel r e d : forall w res,
  TimerH.repeat_loop fuel r e d w = Some res ->
  exists k, 1 <= k /\
    (forall j, 1 <= j < k -> w + j * r <= d /\ w + j * r <= e) /\
    match res with
    | GiveUp => e < w + k * r
    | Next w' => w' = w + k * r /\ w' <= e /\ d < w'
    end.
Proof.
  induction fuel as [|fuel IH]; intros w res Hl;
    cbn [TimerH.repeat_loop] in Hl; [discriminate|].
  destruct (dt_add w r) as [w1|] eqn:Ea; [|discriminate].
  apply dt_add_some in Ea as (-> & _).
  destruct (Z.ltb_spec e (w + r)).
  - injection Hl as <-. exists 1. split; [lia|]. split; [intros; lia|lia].
  - destruct (Z.ltb_spec d (w + r)).
    + injection Hl as <-. exists 1. split; [lia|]. split; [intros; lia|lia].
    + apply IH in Hl as (k & Hk & Hj & Hres).
      exists (k + 1). split; [lia|]. split.
      * intros j Hjr. destruct (Z.eq_dec j 1) as [->|Hne]; [lia|].
        specialize (Hj (j - 1) ltac:(lia)).
        replace (w + j * r) with (w + r + (j - 1) * r) by lia. exact Hj.
      * destruct res as [|w'].
        -- replace (w + (k + 1) * r) with (w + r + k * r) by lia. exact Hres.
        -- replace (w + (k + 1) * r) with (w + r + k * r) by lia. exact Hres.
Qed.


Lemma h_fire_inv H p st dt d ddate dwhen st' b :
  TimerH.fire H p st dt d ddate dwhen = Some (st', b) ->
  b = true /\ lastwhen st' = dwhen /\
  ((p_repeat p = 0 /\ st' = _reset_when (set_lastwhen st dwhen) (Some ddate)) \/
   (p_repeat p <> 0 /\
    exists w s4 res,
      dwhen = Some w /\
      s4 = (if _nexteos st <? d
            then set_nexteos (set_lastwhen st dwhen)
                   (next_eos (set_lastwhen st dwhen) dt ddate)
            else set_lastwhen st dwhen) /\
      TimerH.repeat_loop (repeat_fuel (p_repeat p) d w) (p_repeat p)
        (_nexteos s4) d w = Some res /\
      match res with
      | GiveUp => st' = _reset_when s4 (Some ddate)
      | Next w' =>
          exists x dw,
            h_date2num H w' None = Some x /\
            round_trip H (_tzdata st) w' = Some dw /\
            st' = set_target s4 (Some dw) (Some x)
      end)).
Proof.
  unfold TimerH.fire. intros Hf.
  destruct (Z.eqb_spec (p_repeat p) 0) as [Hr|Hr].
  { injection Hf as <- <-. split; [reflexivity|]. split; [reflexivity|].
    left. auto. }
  cbn [_nexteos set_lastwhen] in Hf.
  set (s4 := if _nexteos st <? d then _ else _) in Hf.
  assert (H4 : lastwhen s4 = dwhen /\ _tzdata s4 = _tzdata st)
    by (subst s4; destruct (_ <? _); split; reflexivity).
  destruct H4 as (Hl4 & Htz4).
  destruct dwhen as [w|]; [|discriminate].
  destruct (TimerH.repeat_loop _ _ _ _ _) as [[|w']|] eqn:Hloop;
    [| |discriminate].
  - injection Hf as <- <-. split; [reflexivity|]. split; [exact Hl4|].
    right. split; [assumption|]. exists w, s4, GiveUp. auto.
  - destruct (h_date2num H w' None) as [x|] eqn:Ex; [|discriminate].
    rewrite (h_delocalize_round_trip H s4 w' x Ex), Htz4 in Hf.
    destruct (round_trip H (_tzdata st) w') as [dw|] eqn:Hrt; [|discriminate].
    injection Hf as <- <-. split; [reflexivity|]. split; [exact Hl4|].
    right. split; [assumption|]. exists w, s4, (Next w').
    split; [reflexivity|]. split; [reflexivity|]. split; [assumption|].
    exists x, dw. auto.
Qed.

Lemma h_target_met_inv H p st dt d ddate st' b :
  TimerH.target_met H p st dt d ddate = Some (st', b) ->
  exists s3 dwhen dtwhen,
    TimerH.resolve H p st ddate = Some (s3, dwhen, dtwhen) /\
    ((dt < dtwhen /\ st' = s3 /\ b = false) \/
     (dtwhen <= dt /\ TimerH.fire H p s3 dt d ddate dwhen = Some (st', b))).
Proof.
  unfold TimerH.target_met. intros Hm.
  destruct (TimerH.resolve H p st ddate) as [[[s3 dwhen] dtwhen]|];
    [|discriminate].
  exists s3, dwhen, dtwhen. split; [reflexivity|].
  destruct (Z.ltb_spec dt dtwhen).
  - injection Hm as <- <-. left. auto.
  - right. auto.
Qed.

Lemma h_check_inv H p st dt st' b :
  TimerH.check H p st dt = Some (st', b) ->
  exists d, h_num2date H dt None = Some d /\
    ((eq_lastcall (_lastcall st) (date_of d) = true /\ st' = st /\ b = false) \/
     (eq_lastcall (_lastcall st) (date_of d) = false /\
      exists ret s2,
        date_rollover p (session_rollover st dt d (date_of d)) (date_of d)
          = Some (ret, s2) /\
        ((ret = false /\ st' = s2 /\ b = false) \/
         (ret = true /\
          TimerH.target_met H p s2 dt d (date_of d) = Some (st', b))))).
Proof.
  unfold TimerH.check. intros Hc.
  destruct (h_num2date H dt None) as [d|]; [|discriminate].
  exists d. split; [reflexivity|].
  destruct (eq_lastcall _ _).
  - injection Hc as <- <-. left. auto.
  - right. split; [reflexivity|].
    destruct (date_rollover _ _ _) as [[[|] s2]|]; [| |discriminate].
    + exists true, s2. split; [reflexivity|]. right. auto.
    + injection Hc as <- <-. exists false, s2. split; [reflexivity|].
      left. auto.
Qed.

Lemma h_run_app H p : forall pre st x post s1 bs,
  TimerH.run H p st pre = Some (s1, bs) ->
  TimerH.run H p st (pre ++ x :: post) =
    match TimerH.check H p s1 x with
    | None => None
    | Some (s2, b) =>
        match TimerH.run H p s2 post with
        | None => None
        | Some (s3, bs') => Some (s3, bs ++ b :: bs')
        end
    end.
Proof.
  induction pre as [|t pre IH]; intros st x post s1 bs Hr;
    cbn [TimerH.run app] in *.
  - injection Hr as <- <-. reflexivity.
  - destruct (TimerH.check H p st t) as [[s b]|]; [|discriminate].
    destruct (TimerH.run H p s pre) as [[s' bs0]|] eqn:Hr0; [|discriminate].
    injection Hr as <- <-.
    rewrite (IH _ x post _ _ Hr0).
    destruct (TimerH.check H p s' x) as [[s2 b2]|]; [|reflexivity].
    destruct (TimerH.run H p s2 post) as [[s3 bs3]|]; reflexivity.
Qed.

(** ** The exact timer as an instance *)

(** [Timer.check] is [TimerH.check] on the exact helpers, wherever no
    addition leaves the range of [datetime]. *)
Lemma exact_repeat_loop fuel r e d : forall w res,
  TimerH.repeat_loop fuel r e d w = Some res ->
  Timer.repeat_loop fuel r e d w = Some res.
Proof.
  induction fuel as [|fuel IH]; intros w res Hl;
    cbn [TimerH.repeat_loop Timer.repeat_loop] in *; [discriminate|].
  destruct (dt_add w r) as [w1|] eqn:Ea; [|discriminate].
  apply dt_add_some in Ea as (-> & _).
  destruct (e <? w + r); [assumption|].
  destruct (d <? w + r); [assumption|]. now apply IH.
Qed.

Lemma exact_localize st w :
  TimerH.localize exact_helpers st w = Some (Timer.localize st w).
Proof.
  unfold TimerH.localize, Timer.localize. destruct (_tzdata st); reflexivity.
Qed.

Lemma exact_delocalize st x :
  TimerH.delocalize exact_helpers st x = Some (Timer.delocalize st x).
Proof.
  unfold TimerH.delocalize, Timer.delocalize.
  destruct (_tzdata st); reflexivity.
Qed.

Lemma exact_check p st dt res :
  TimerH.check exact_helpers p st dt = Some res ->
  Timer.check p st dt = Some res.
Proof.
  unfold TimerH.check, Timer.check. cbn [h_num2date exact_helpers].
  destruct (eq_lastcall _ _); [trivial|].
  destruct (date_rollover _ _ _) as [[[|] s2]|]; trivial.
  unfold TimerH.target_met, Timer.target_met, TimerH.resolve, Timer.resolve.
  destruct (_dtwhen s2) as [v|].
  - destruct (dt <? v); [trivial|].
    unfold TimerH.fire, Timer.fire.
    destruct (p_repeat p =? 0); [trivial|].
    cbn [_nexteos set_lastwhen].
    set (s4 := if _nexteos s2 <? num2date dt None then _ else _).
    destruct (_dwhen s2) as [w|]; [|trivial].
    destruct (TimerH.repeat_loop _ _ _ _ _) as [[|w']|] eqn:Hl;
      [| |discriminate]; rewrite (exact_repeat_loop _ _ _ _ _ _ Hl);
      [trivial|].
    cbn [h_date2num exact_helpers]. rewrite exact_delocalize. trivial.
  - assert (Htg : forall tg,
               (if p_offset p =? 0
                then Some (combine (date_of (num2date dt None)) (_when s2))
                else dt_add (combine (date_of (num2date dt None)) (_when s2))
                       (p_offset p)) = Some tg ->
               tg = (if p_offset p =? 0
                     then combine (date_of (num2date dt None)) (_when s2)
                     else combine (date_of (num2date dt None)) (_when s2)
                          + p_offset p)).
    { intros tg. destruct (p_offset p =? 0).
      - intros E. now injection E as <-.
      - intros E. now apply dt_add_some in E as (-> & _). }
    destruct (if p_offset p =? 0 then _ else _) as [tg|] eqn:Etg;
      [|discriminate].
    rewrite <- (Htg tg eq_refl). rewrite exact_localize.
    destruct (dt <? Timer.localize s2 tg); [trivial|].
    unfold TimerH.fire, Timer.fire.
    destruct (p_repeat p =? 0); [trivial|].
    cbn [_nexteos set_lastwhen set_target].
    set (s4 := if _nexteos s2 <? num2date dt None then _ else _).
    destruct (TimerH.repeat_loop _ _ _ _ _) as [[|w']|] eqn:Hl;
      [| |discriminate]; rewrite (exact_repeat_loop _ _ _ _ _ _ Hl);
      [trivial|].
    cbn [h_date2num exact_helpers]. rewrite exact_delocalize. trivial.
Qed.

(** ** The same sample twice *)

(** Reference values of the helpers on doubles: the timestamp of 2024-01-10
    10:00:00.25 is the double [0x1.68c9ed555b66cp+19], printed
    738895.4166695601, and [num2date] gives back 10:00:00.249995; the round
    trip of 09:00:00.25 gives 09:00:00.249998 and that of 23:59:59.999990
    gives 23:59:59.999989, while whole hours come back as they are. *)
Lemma float_reference_values :
  ts_0110 10 0 0 250000 = 0x168c9ed555b66c * 2 ^ 19 /\
  Float.num2date (ts_0110 10 0 0 250000) None
    = Some (combine 738895 (hms 10 0 0 249995)) /\
  Float.num2date (ts_0110 9 0 0 250000) None
    = Some (combine 738895 (hms 9 0 0 249998)) /\
  Float.num2date (ts_0110 23 59 59 999990) None
    = Some (combine 738895 (hms 23 59 59 999989)) /\
  Float.num2date (ts_0110 10 0 0 0) None
    = Some (combine 738895 (hms 10 0 0 0)).
Proof. vm_compute. repeat split. Qed.

(** C9. Line 196 compares the timestamps, line 220 the datetimes, and the
    datetime of a sample is its timestamp truncated by [num2date]. For the
    timer of 09:00:00.25 repeating every hour, sampled three times at the
    timestamp of 2024-01-10 10:00:00.25: the first call fires the instant
    09:00:00.25 and moves the target to 10:00:00.25, which is past the
    datetime of the sample (10:00:00.249995) but not past its timestamp; the
    second call with the same timestamp fires again, recording 10:00:00.249995;
    only the third returns false. *)
Theorem same_sample_fires_twice :
  let x := ts_0110 10 0 0 250000 in
  let st := started (hms 9 0 0 250000) TzNone in
  exists s1 s2 s3,
    TimerH.check Float.helpers quarter_second_hourly st x = Some (s1, true) /\
    lastwhen s1 = Some (combine 738895 (hms 9 0 0 250000)) /\
    _dtwhen s1 = Some x /\
    TimerH.check Float.helpers quarter_second_hourly s1 x = Some (s2, true) /\
    lastwhen s2 = Some (combine 738895 (hms 10 0 0 249995)) /\
    TimerH.check Float.helpers quarter_second_hourly s2 x = Some (s3, false).
Proof.
  intros x st.
  assert (H1 : exists s1,
             TimerH.check Float.helpers quarter_second_hourly st x
               = Some (s1, true))
    by (eexists; vm_compute; reflexivity).
  destruct H1 as (s1 & H1). exists s1.
  assert (H2 : exists s2,
             TimerH.check Float.helpers quarter_second_hourly s1 x
               = Some (s2, true) /\
             lastwhen s1 = Some (combine 738895 (hms 9 0 0 250000)) /\
             _dtwhen s1 = Some x).
  { vm_compute in H1. injection H1 as <-. eexists. vm_compute.
    repeat split. }
  destruct H2 as (s2 & H2 & Hl1 & Hd1). exists s2.
  assert (H3 : exists s3,
             TimerH.check Float.helpers quarter_second_hourly s2 x
               = Some (s3, false) /\
             lastwhen s2 = Some (combine 738895 (hms 10 0 0 249995))).
  { vm_compute in H1. injection H1 as <-.
    vm_compute in H2. injection H2 as <-. eexists. vm_compute.
    repeat split. }
  destruct H3 as (s3 & H3 & Hl2). exists s3. repeat split; assumption.
Qed.

(** Without repeat the second call does return false, whatever the
    helpers: line 202 marks the date. *)
Lemma h_resample_without_repeat H p st dt st' :
  p_repeat p = 0 ->
  TimerH.check H p st dt = Some (st', true) ->
  TimerH.check H p st' dt = Some (st', false).
Proof.
  intros Hr Hc.
  apply h_check_inv in Hc as (d & Hd & [(_ & _ & E)|(_ & ret & s2 & _ & Hc)]);
    [discriminate|].
  destruct Hc as [(_ & _ & E)|(_ & Hm)]; [discriminate|].
  apply h_target_met_inv in Hm
    as (s3 & dwhen & dtwhen & _ & [(_ & _ & E)|(_ & Hf)]); [discriminate|].
  apply h_fire_inv in Hf as (_ & _ & [(_ & ->)|(Hne & _)]); [|contradiction].
  unfold TimerH.check. rewrite Hd. cbn. rewrite Z.eqb_refl. reflexivity.
Qed.

(** ** Repeating timers *)







(** ** The target of the date *)

Lemma h_localize_tz H s st w :
  _tzdata s = _tzdata st -> TimerH.localize H s w = TimerH.localize H st w.
Proof. unfold TimerH.localize. intros ->. reflexivity. Qed.








(** * Further properties of the timer on float timestamps *)

(** ** Calls that return *)

(** X8. Without repeat, [check] returns whenever the sample is a timestamp
    of a date and the target of that date can be resolved: neither the
    offset nor the localization takes it out of the range of [datetime]. The
    target time is the current one or, after a session change, the one kept
    for resets. *)
Theorem check_returns_without_repeat H p st dt d :
  p_repeat p = 0 ->
  h_num2date H dt None = Some d ->
  resolvable H p st (_when st) (date_of d) ->
  resolvable H p st (_rstwhen st) (date_of d) ->
  exists st' b, TimerH.check H p st dt = Some (st', b).
Proof.
  intros Hr Hd Hw Hrst. unfold TimerH.check. rewrite Hd.
  destruct (eq_lastcall _ _); [eauto|].
  assert (H1 : forall s1, s1 = session_rollover st dt d (date_of d) ->
            (_when s1 = _when st \/ _when s1 = _rstwhen st) /\
            _tzdata s1 = _tzdata st).
  { intros s1 ->. unfold session_rollover. destruct (_ <? _); cbn; auto. }
  set (s1 := session_rollover _ _ _ _) in *.
  specialize (H1 s1 eq_refl).
  destruct (date_rollover_rolled p s1 (date_of d))
    as (ret & s2 & Heq & Hroll). rewrite Heq.
  destruct ret; [|eauto].
  destruct H1 as (H1 & Htz1).
  destruct Hroll as (_ & Htz2 & _ & _ & _ & Ht & _).
  destruct (Ht eq_refl) as (Hw2 & _).
  unfold TimerH.target_met, TimerH.resolve.
  fold (target_of p (_when s2) (date_of d)).
  assert (Htg : resolvable H p st (_when s2) (date_of d))
    by (rewrite Hw2; destruct H1 as [-> | ->]; assumption).
  destruct Htg as (tg & trig & Htg & Htr).
  destruct (_dtwhen s2) as [v|].
  - destruct (dt <? v); [eauto|].
    unfold TimerH.fire. rewrite Hr. cbn [Z.eqb]. eauto.
  - rewrite Htg. rewrite (h_localize_tz H s2 st) by congruence. rewrite Htr.
    destruct (dt <? _); [eauto|].
    unfold TimerH.fire. rewrite Hr. cbn [Z.eqb]. eauto.
Qed.

(** The theorem for the daily timer of 09:00 at the sample of 10:00 on
    2024-01-10; with an offset of 3000000 days the call raises instead. *)
Lemma check_returns_without_repeat_witness :
  (exists st' b,
     TimerH.check Float.helpers daily_0900 (started (hms 9 0 0 0) TzNone)
       (ts_0110 10 0 0 0) = Some (st', b)) /\
  TimerH.check Float.helpers far_offset_0900 (started (hms 9 0 0 0) TzNone)
    (ts_0110 10 0 0 0) = None.
Proof.
  split.
  - apply (check_returns_without_repeat Float.helpers daily_0900 _ _
             (combine 738895 (hms 10 0 0 0))).
    + reflexivity.
    + vm_compute. reflexivity.
    + eexists _, _. split; reflexivity.
    + eexists _, _. split; reflexivity.
  - vm_compute. reflexivity.
Defined.

(** ** The repeat loop with a negative interval *)

Lemma h_repeat_loop_stuck r e d : forall fuel w,
  r < 0 -> w <= e -> w <= d -> TimerH.repeat_loop fuel r e d w = None.
Proof.
  induction fuel as [|fuel IH]; intros w Hr He Hd; [reflexivity|].
  cbn [TimerH.repeat_loop].
  destruct (dt_add w r) as [w1|] eqn:Ea; [|reflexivity].
  apply dt_add_some in Ea as (-> & _).
  destruct (Z.ltb_spec e (w + r)); [lia|].
  destruct (Z.ltb_spec d (w + r)); [lia|].
  apply IH; lia.
Qed.

(** X9. With a negative repeat interval the loop of lines 214-228 ends at
    its first turn or does not end normally: the instants only go back, so
    that when the first one is neither past the end of the session nor past
    the sample, none is, until the subtraction leaves the range of
    [datetime]. *)
Theorem negative_repeat_ends_at_first_turn r e d w fuel :
  r < 0 ->
  TimerH.repeat_loop (S fuel) r e d w = TimerH.repeat_loop 1 r e d w.
Proof.
  intros Hr. cbn [TimerH.repeat_loop].
  destruct (dt_add w r) as [w1|] eqn:Ea; [|reflexivity].
  apply dt_add_some in Ea as (-> & _).
  destruct (Z.ltb_spec e (w + r)); [reflexivity|].
  destruct (Z.ltb_spec d (w + r)); [reflexivity|].
  apply h_repeat_loop_stuck; lia.
Qed.

(** The theorem for an interval of minus one microsecond from 09:00:00.25,
    the datetime of the sample being 09:00:00.249998: the first turn is past
    it. The call of [check] at the timestamp of 09:00:00.25 returns true. *)
Lemma negative_repeat_ends_at_first_turn_witness :
  TimerH.repeat_loop 5 (-1) (combine 738895 TIME_MAX)
    (combine 738895 (hms 9 0 0 249998)) (combine 738895 (hms 9 0 0 250000))
    = Some (Next (combine 738895 (hms 9 0 0 249999))) /\
  exists st',
    TimerH.check Float.helpers backwards_repeat
      (started (hms 9 0 0 250000) TzNone) (ts_0110 9 0 0 250000)
      = Some (st', true).
Proof.
  split.
  - rewrite (negative_repeat_ends_at_first_turn (-1) _ _ _ 4 eq_refl).
    reflexivity.
  - eexists. vm_compute. reflexivity.
Defined.

(** ** The target cached by a repeat *)

(** X10. When a call of a repeating timer returns true and leaves a target
    cached, that target is the timestamp, taken without timezone, of an
    instant that is past the datetime of the sample and not past the end of
    the session; the datetime cached with it is what the time source
    converts that timestamp back to. It is the datetime of the sample that
    the instant is past, not its timestamp. *)
Theorem rescheduled_target_is_past_the_sample H p st dt st' v :
  TimerH.check H p st dt = Some (st', true) ->
  p_repeat p <> 0 ->
  _dtwhen st' = Some v ->
  exists d w',
    h_num2date H dt None = Some d /\ h_date2num H w' None = Some v /\
    d < w' <= _nexteos st' /\ _dwhen st' = round_trip H (_tzdata st') w'.
Proof.
  intros Hc Hr Hv.
  apply h_check_inv in Hc as (d & Hd & [(_ & _ & E)|(_ & ret & s2 & _ & Hc)]);
    [discriminate|].
  destruct Hc as [(_ & _ & E)|(_ & Hm)]; [discriminate|].
  apply h_target_met_inv in Hm
    as (s3 & dwhen & dtwhen & _ & [(_ & _ & E)|(_ & Hf)]); [discriminate|].
  apply h_fire_inv in Hf as (_ & _ & [(Hr0 & _)|(_ & Hloop)]);
    [contradiction|].
  destruct Hloop as (w & s4 & res & -> & Es4 & Hloop & Hres).
  assert (Htz4 : _tzdata s4 = _tzdata s3)
    by (subst s4; destruct (_ <? _); reflexivity).
  apply h_repeat_loop_inv in Hloop as (k & _ & _ & Hend).
  destruct res as [|w'].
  - subst st'. discriminate Hv.
  - destruct Hres as (x & dw & Ex & Hrt & ->).
    destruct Hend as (_ & Hle & Hgt).
    cbn in Hv. injection Hv as <-.
    exists d, w'. cbn. rewrite Htz4, Hrt. repeat split; assumption.
Qed.

(** The theorem for the timer of 09:00:00.25 repeating every hour, sampled
    at the timestamp of 10:00:00.25 on 2024-01-10: the cached target is the
    timestamp of 10:00:00.25, which is the sample itself, and the datetime
    of the sample is 10:00:00.249995. *)
Lemma rescheduled_target_is_past_the_sample_witness :
  exists st' d w',
    TimerH.check Float.helpers quarter_second_hourly
      (started (hms 9 0 0 250000) TzNone) (ts_0110 10 0 0 250000)
      = Some (st', true) /\
    _dtwhen st' = Some (ts_0110 10 0 0 250000) /\
    h_num2date Float.helpers (ts_0110 10 0 0 250000) None = Some d /\
    h_date2num Float.helpers w' None = Some (ts_0110 10 0 0 250000) /\
    d < w' <= _nexteos st'.
Proof.
  assert (H1 : exists st',
             TimerH.check Float.helpers quarter_second_hourly
               (started (hms 9 0 0 250000) TzNone) (ts_0110 10 0 0 250000)
               = Some (st', true) /\
             _dtwhen st' = Some (ts_0110 10 0 0 250000))
    by (eexists; vm_compute; split; reflexivity).
  destruct H1 as (st' & H1 & Hv).
  destruct (rescheduled_target_is_past_the_sample Float.helpers
              quarter_second_hourly _ _ st' _ H1 ltac:(discriminate) Hv)
    as (d & w' & Hd & Ew & Hlt & _).
  exists st', d, w'. repeat split; try assumption; apply Hlt.
Defined.

(** * Properties of the watchdog [ResetTimer] *)

Module ResetFacts.
Import String ResetTimer.

Lemma live_test_app_keeps_request p cal r st st' :
  live_test_app p cal r st = Some st' ->
  timer st = Some true -> timer st' = Some true.
Proof.
  unfold live_test_app. intros H Ht.
  destruct (candle_span (r_num r) (r_val r)) as [t|n|]; [| |discriminate];
    (destruct (truthy (market_open p cal));
     [|injection H as <-; cbn; assumption]); [|discriminate].
  destruct (in_timedelta _); [|discriminate].
  destruct (_ <? _); injection H as <-; cbn; [reflexivity|assumption].
Qed.

Lemma run_pending_keeps_request p : forall due st st',
  run_pending p due st = Some st' ->
  timer st = Some true -> timer st' = Some true.
Proof.
  induction due as [|[|cal r] due IH]; intros st st' H Ht; cbn in H.
  - now injection H as <-.
  - eapply IH; [eassumption|reflexivity].
  - destruct (live_test_app p cal r st) as [s1|] eqn:E; [|discriminate].
    eapply IH; [eassumption|].
    eapply live_test_app_keeps_request; eassumption.
Qed.

Lemma run_pending_daily_reset p : forall due st st',
  run_pending p due st = Some st' ->
  In DailyReset due -> timer st' = Some true.
Proof.
  induction due as [|[|cal r] due IH]; intros st st' H Hin; cbn in H.
  - destruct Hin.
  - eapply run_pending_keeps_request; [eassumption|reflexivity].
  - destruct Hin as [Hin|Hin]; [discriminate|].
    destruct (live_test_app p cal r st) as [s1|]; [|discriminate].
    eapply IH; eassumption.
Qed.

(** X15. A reset is reported once: when [check] returns true it leaves the
    flag cleared, and the next [check] with no job due returns false. *)
Theorem reset_is_reported_once p due st st' :
  check p due st = Some (st', true) ->
  timer st' = Some false /\ check p [] st' = Some (st', false).
Proof.
  unfold check. intros H.
  destruct (run_pending p due st) as [s1|]; [|discriminate].
  destruct (or_false (timer s1)); [|discriminate].
  injection H as <-. split; reflexivity.
Qed.

(** The theorem when the daily reset is due on a new watchdog. *)
Lemma reset_is_reported_once_witness :
  exists st',
    check stock_watchdog [DailyReset] init = Some (st', true) /\
    check stock_watchdog [] st' = Some (st', false).
Proof.
  exists (mkRState (Some false) None). split; [reflexivity|].
  exact (proj2 (reset_is_reported_once stock_watchdog [DailyReset] init
                  (mkRState (Some false) None) eq_refl)).
Defined.

(** X16. No job clears a request: when the flag was already set, or the
    daily reset is among the jobs due, a [check] that returns answers true,
    whatever the other jobs did. *)
Theorem pending_reset_is_reported p due st st' b :
  timer st = Some true \/ In DailyReset due ->
  check p due st = Some (st', b) ->
  b = true.
Proof.
  unfold check. intros Hreq H.
  destruct (run_pending p due st) as [s1|] eqn:E; [|discriminate].
  assert (Ht : timer s1 = Some true).
  { destruct Hreq as [Ht|Hin].
    - eapply run_pending_keeps_request; eassumption.
    - eapply run_pending_daily_reset; eassumption. }
  rewrite Ht in H. cbn in H. now injection H as _ <-.
Qed.

(** The theorem when the daily reset runs before a watchdog job that finds
    nothing frozen. *)
Lemma pending_reset_is_reported_witness :
  exists st',
    check stock_watchdog
          [DailyReset;
           LiveTest open_calendars
             (mkReading (combine 738895 (hms 10 1 0 0))
                        (combine 738895 (hms 10 0 0 0)) 5 "mins")]
          init = Some (st', true).
Proof.
  set (due := [DailyReset;
               LiveTest open_calendars
                 (mkReading (combine 738895 (hms 10 1 0 0))
                            (combine 738895 (hms 10 0 0 0)) 5 "mins")]).
  assert (H : exists st' b, check stock_watchdog due init = Some (st', b))
    by (eexists _, _; vm_compute; reflexivity).
  destruct H as (st' & b & H).
  assert (Hb : b = true).
  { apply (pending_reset_is_reported stock_watchdog due init st' b);
      [right; left; reflexivity|exact H]. }
  subst b. exists st'. exact H.
Defined.

(** X17. With a market name that is none of stock, futures and both,
    [market_open] returns [None], which counts as closed: whatever the
    calendars and the candle unit, the watchdog job never requests a reset;
    it records the elapsed time, unless the candle size is a timedelta out
    of range, in which case it raises before recording anything. *)
Theorem unknown_market_never_requests p cal r st :
  p_market p <> "stock"%string ->
  p_market p <> "futures"%string ->
  p_market p <> "both"%string ->
  market_open p cal = None /\
  (candle_span (r_num r) (r_val r) = Overflow ->
   live_test_app p cal r st = None) /\
  (candle_span (r_num r) (r_val r) <> Overflow ->
   live_test_app p cal r st
     = Some (mkRState (timer st) (Some (r_now r - r_cycle r)))).
Proof.
  intros H1 H2 H3.
  assert (Hm : market_open p cal = None).
  { unfold market_open.
    rewrite (proj2 (String.eqb_neq _ _) H1).
    rewrite (proj2 (String.eqb_neq _ _) H2).
    rewrite (proj2 (String.eqb_neq _ _) H3). reflexivity. }
  split; [exact Hm|].
  unfold live_test_app. rewrite Hm.
  destruct (candle_span (r_num r) (r_val r)); split;
    try reflexivity; try discriminate; intros E; now destruct E.
Qed.

(** The theorem for the market name "forex" and a stale reading in an
    unknown unit, and for a candle size of 1000000000 days. *)
Lemma unknown_market_never_requests_witness :
  live_test_app (mkRParams 2 "forex" false false) open_calendars odd_reading
                init
    = Some (mkRState None (Some (hms 0 11 0 0))) /\
  live_test_app (mkRParams 2 "forex" false false) open_calendars
                huge_reading init = None.
Proof.
  destruct (unknown_market_never_requests
              (mkRParams 2 "forex" false false) open_calendars
              odd_reading init) as (_ & _ & Hodd); try discriminate.
  destruct (unknown_market_never_requests
              (mkRParams 2 "forex" false false) open_calendars
              huge_reading init) as (_ & Hhuge & _); try discriminate.
  split; [apply Hodd; discriminate|apply Hhuge; reflexivity].
Defined.

(** X18. With the market open and a known candle unit whose timedelta [t]
    is in range: when [cycle_mult * t] is in the range of [timedelta] too,
    the watchdog job records the elapsed time and requests a reset exactly
    when the time since the last cycle is more than [cycle_mult] times the
    candle size, a time equal to that bound requesting nothing; when the
    product is out of range, the job raises. *)
Theorem frozen_cycle_threshold p cal r st t :
  truthy (market_open p cal) = true ->
  candle_span (r_num r) (r_val r) = Delta t ->
  (in_timedelta (p_cycle_mult p * t) = true ->
   exists st',
     live_test_app p cal r st = Some st' /\
     lastwhen st' = Some (r_now r - r_cycle r) /\
     (p_cycle_mult p * t < r_now r - r_cycle r -> timer st' = Some true) /\
     (r_now r - r_cycle r <= p_cycle_mult p * t -> timer st' = timer st)) /\
  (in_timedelta (p_cycle_mult p * t) = false ->
   live_test_app p cal r st = None).
Proof.
  intros Ho Hs. unfold live_test_app. rewrite Ho, Hs. split; intros Hin;
    rewrite Hin; [|reflexivity].
  destruct (Z.ltb_spec (p_cycle_mult p * t) (r_now r - r_cycle r)).
  - eexists. split; [reflexivity|]. cbn. repeat split. lia.
  - eexists. split; [reflexivity|]. cbn. repeat split. lia.
Qed.

(** The theorem for five-minute candles and a last cycle 11 minutes old,
    more than twice the candle size; and for candles of 600000000 days,
    whose double is no timedelta. *)
Lemma frozen_cycle_threshold_witness :
  (exists st',
     live_test_app stock_watchdog open_calendars stale_reading init
       = Some st' /\
     timer st' = Some true) /\
  live_test_app stock_watchdog open_calendars long_reading init = None.
Proof.
  split.
  - destruct (proj1 (frozen_cycle_threshold stock_watchdog open_calendars
                       stale_reading init (5 * 60000000) eq_refl eq_refl)
                eq_refl)
      as (st' & H & _ & Hset & _).
    exists st'. split; [exact H|]. apply Hset. reflexivity.
  - exact (proj2 (frozen_cycle_threshold stock_watchdog open_calendars
                    long_reading init (600000000 * DAY) eq_refl eq_refl)
             eq_refl).
Defined.

(** X19. With the market open and a candle unit that is not one of the
    known ones, the comparison of the elapsed time with an integer raises:
    the watchdog job does not return, and neither does a [check] that finds
    it due. *)
Theorem unknown_unit_raises_when_open p cal r st due n :
  truthy (market_open p cal) = true ->
  candle_span (r_num r) (r_val r) = Count n ->
  live_test_app p cal r st = None /\
  check p (LiveTest cal r :: due) st = None.
Proof.
  intros Ho Hs.
  assert (H : live_test_app p cal r st = None)
    by (unfold live_test_app; rewrite Ho, Hs; reflexivity).
  split; [exact H|]. unfold check. cbn [run_pending]. rewrite H.
  reflexivity.
Qed.

(** The theorem for the candle unit "ticks". *)
Lemma unknown_unit_raises_when_open_witness :
  check stock_watchdog [LiveTest open_calendars odd_reading] init = None.
Proof.
  exact (proj2 (unknown_unit_raises_when_open stock_watchdog open_calendars
                  odd_reading init [] 5 eq_refl eq_refl)).
Defined.

(** X20. With the market name "both" the futures calendar has no say: the
    answer of [market_open] is the one of the stock calendar, and the
    watchdog job does the same whatever the futures calendar answers. *)
Theorem both_markets_follow_stock p nyse cme cme' r st :
  p_market p = "both"%string ->
  market_open p (mkCalendars nyse cme)
    = Some (or_false (nyse (negb (p_early_trading p || p_late_trading p))))
  /\
  live_test_app p (mkCalendars nyse cme) r st
    = live_test_app p (mkCalendars nyse cme') r st.
Proof.
  intros Hm.
  assert (H : forall c,
             market_open p (mkCalendars nyse c)
             = Some (or_false
                       (nyse (negb (p_early_trading p || p_late_trading p)))))
    by (intros c; unfold market_open; rewrite Hm; reflexivity).
  split; [apply H|]. unfold live_test_app. now rewrite !H.
Qed.

(** The theorem with the stock market closed and the futures market open:
    nothing is requested. *)
Lemma both_markets_follow_stock_witness :
  live_test_app (mkRParams 2 "both" false false)
                (mkCalendars (fun _ => Some false) (Some true))
                stale_reading init
    = live_test_app (mkRParams 2 "both" false false)
                    (mkCalendars (fun _ => Some false) None)
                    stale_reading init.
Proof.
  exact (proj2 (both_markets_follow_stock (mkRParams 2 "both" false false)
                  (fun _ => Some false) (Some true) None stale_reading init
                  eq_refl)).
Defined.

End ResetFacts.
